(** * pdf2text: the Express handlers of [server.js]

    A shallow embedding of the three API routes of [src/server.js]
    ([/api/pdf-text], [/api/pdf-text-all], [/api/health]) together with
    the fragments of JavaScript they rely on ([parseInt], [||], [isNaN],
    [String.prototype.trim], [Array.prototype.join]).

    - JavaScript strings are sequences of UTF-16 code units ([list N]).
    - JavaScript numbers that reach the handlers all come from [parseInt]
      or from integer literals: they are [NaN], an integer-valued double
      or an infinity.  [-0] and [+0] are identified (both are falsy and
      compare alike).
    - [parseInt] converts its argument to a string first; on a query
      object that carries a [toString] key of its own this conversion
      throws a [TypeError], which the handler's [catch] answers like any
      other failure.
    - A handler is a computation in a small exception-and-trace monad; the
      trace records the calls that leave the process ([axios.get],
      [pdfParse], [console.error]). *)

From Stdlib Require Import ZArith NArith List Ascii String Bool Lia.
From stdpp Require Import base option list countable gmap.

Import ListNotations.
Local Open Scope Z_scope.

(* ===================================================================== *)
(** ** JavaScript values *)
(* ===================================================================== *)

Module JS.

(** A string is its sequence of UTF-16 code units. *)
Abbreviation jsstring := (list N).

(** A source-level ASCII literal as a JavaScript string. *)
Definition lit (s : string) : jsstring :=
  List.map N_of_ascii (list_ascii_of_string s).

(** ECMAScript [WhiteSpace] and [LineTerminator] code points: the set
    stripped by [trim] and skipped by [parseInt]. *)
Definition isWhiteSpace (c : N) : bool :=
  ((9 <=? c) && (c <=? 13)            (* TAB LF VT FF CR *)
   || (c =? 32) || (c =? 160)         (* SP NBSP *)
   || (c =? 5760)                     (* U+1680 *)
   || ((8192 <=? c) && (c <=? 8202))  (* U+2000 .. U+200A *)
   || (c =? 8232) || (c =? 8233)      (* LS PS *)
   || (c =? 8239) || (c =? 8287)      (* U+202F U+205F *)
   || (c =? 12288) || (c =? 65279))%N (* U+3000 U+FEFF *).

Fixpoint trimStart (s : jsstring) : jsstring :=
  match s with
  | c :: s' => if isWhiteSpace c then trimStart s' else s
  | [] => []
  end.

Definition trimEnd (s : jsstring) : jsstring := rev (trimStart (rev s)).

(** [String.prototype.trim] *)
Definition trim (s : jsstring) : jsstring := trimEnd (trimStart s).

(** [Array.prototype.join] on an array of strings. *)
Fixpoint join (sep : jsstring) (l : list jsstring) : jsstring :=
  match l with
  | [] => []
  | [x] => x
  | x :: rest => x ++ sep ++ join sep rest
  end.

(** Numbers: the values [parseInt] can produce. *)
Inductive Number :=
| NaN
| Fin (z : Z)
| Infinity
| NegInfinity.

(** The Number value of a mathematical integer: nearest double, ties to
    even, overflowing to an infinity. *)
Definition toNumber (z : Z) : Number :=
  let a := Z.abs z in
  if a <? 2 ^ 53 then Fin z
  else
    let e := Z.log2 a - 52 in
    let q := Z.shiftr a e in
    let r := a - Z.shiftl q e in
    let half := 2 ^ (e - 1) in
    let q' := if (half <? r) || ((half =? r) && Z.odd q) then q + 1 else q in
    let v := Z.shiftl q' e in
    if 2 ^ 1024 <=? v then (if z <? 0 then NegInfinity else Infinity)
    else Fin (Z.sgn z * v).

Definition isNaN (x : Number) : bool :=
  match x with NaN => true | _ => false end.

(** [x < y] *)
Definition lt (x y : Number) : bool :=
  match x, y with
  | NaN, _ | _, NaN => false
  | Fin a, Fin b => a <? b
  | NegInfinity, NegInfinity => false
  | NegInfinity, _ => true
  | _, NegInfinity => false
  | Infinity, _ => false
  | _, Infinity => true
  end.

(** [x > y] *)
Definition gt (x y : Number) : bool := lt y x.

(** ToBoolean on numbers: [NaN] and zero are falsy. *)
Definition truthy (x : Number) : bool :=
  match x with
  | NaN => false
  | Fin z => negb (z =? 0)
  | _ => true
  end.

(** [x || d] on numbers. *)
Definition or (x d : Number) : Number := if truthy x then x else d.

(** [s || d] on strings: the empty string is falsy. *)
Definition or_string (s d : jsstring) : jsstring :=
  match s with [] => d | _ => s end.

(** The value of a code unit as a digit ([0-9], [a-z], [A-Z]). *)
Definition digitValue (c : N) : option Z :=
  if ((48 <=? c) && (c <=? 57))%N then Some (Z.of_N c - 48)
  else if ((97 <=? c) && (c <=? 122))%N then Some (Z.of_N c - 87)
  else if ((65 <=? c) && (c <=? 90))%N then Some (Z.of_N c - 55)
  else None.

(** The longest prefix of [s] made of radix-[R] digits, as digit values. *)
Fixpoint radixDigits (R : Z) (s : jsstring) : list Z :=
  match s with
  | c :: s' =>
      match digitValue c with
      | Some d => if d <? R then d :: radixDigits R s' else []
      | None => []
      end
  | [] => []
  end.

Definition mathInt (R : Z) (ds : list Z) : Z :=
  fold_left (fun acc d => acc * R + d) ds 0.

(** [parseInt(string)] with no radix argument, on an already converted
    string: skip white space, read a sign, strip a [0x]/[0X] prefix,
    read the digits. *)
Definition parseIntString (inputString : jsstring) : Number :=
  let S0 := trimStart inputString in
  let sign := match S0 with 45%N :: _ => -1 | _ => 1 end in
  let S1 := match S0 with
            | 43%N :: t => t
            | 45%N :: t => t
            | _ => S0
            end in
  let '(R, S2) := match S1 with
                  | 48%N :: 120%N :: t => (16, t)
                  | 48%N :: 88%N :: t => (16, t)
                  | _ => (10, S1)
                  end in
  match radixDigits R S2 with
  | [] => NaN
  | ds => toNumber (sign * mathInt R ds)
  end.

#[local] Set Warnings "-register-all".

(** A value of [req.query] as the [qs] parser builds it: a string, an
    array ([a=1&a=2], [a[]=1]) or an object ([a[b]=1]). *)
Inductive qvalue :=
| QStr (s : jsstring)
| QArr (elems : list qvalue)
| QObj (fields : list (jsstring * qvalue)).

(** The message of the [TypeError] that ToPrimitive throws in Node.js
    when neither [toString] nor [valueOf] yields a primitive. *)
Definition not_primitive : jsstring :=
  lit "Cannot convert object to primitive value".

(** The object has an own property [key]. *)
Fixpoint has_own (key : jsstring) (fields : list (jsstring * qvalue)) : bool :=
  match fields with
  | [] => false
  | (k, _) :: fields' => bool_decide (k = key) || has_own key fields'
  end.

(** ToString on query values; [None] is the [TypeError] of ToPrimitive.
    An array is joined with commas by [Array.prototype.toString].  An
    object is converted by its [toString]: [Object.prototype.toString]
    gives ["[object Object]"], but an own property [toString] (the query
    [a[toString]=x]) holds a string, an array or an object, which cannot
    be called, and [valueOf] (own: not callable; inherited: returns the
    object itself) gives no primitive either, so the conversion throws. *)
Fixpoint ToString (v : qvalue) : option jsstring :=
  match v with
  | QStr s => Some s
  | QArr elems =>
      option_map (join (lit ","))
        ((fix strings (l : list qvalue) : option (list jsstring) :=
            match l with
            | [] => Some []
            | x :: l' =>
                match ToString x, strings l' with
                | Some s, Some ss => Some (s :: ss)
                | _, _ => None
                end
            end) elems)
  | QObj fields =>
      if has_own (lit "toString") fields then None
      else Some (lit "[object Object]")
  end.

(** A property read [req.query.k]: [None] is [undefined]. *)
Definition ToString_prop (v : option qvalue) : option jsstring :=
  match v with
  | Some q => ToString q
  | None => Some (lit "undefined")
  end.

(** [parseInt(v)]; [None] is the [TypeError] of the conversion of [v] to
    a string. *)
Definition parseInt (v : option qvalue) : option Number :=
  option_map parseIntString (ToString_prop v).

(** ToBoolean on a property read: [undefined] and the empty string are
    falsy, arrays and objects are truthy. *)
Definition truthy_prop (v : option qvalue) : bool :=
  match v with
  | None => false
  | Some (QStr []) => false
  | Some _ => true
  end.

End JS.

(* ===================================================================== *)
(** ** Effects: exceptions and the trace of outgoing calls *)
(* ===================================================================== *)

Module Eff.
Import JS.

Abbreviation Bytes := (list Byte.byte).

(** The calls of a handler that leave the process. *)
Inductive Event :=
| HttpGet (url : option qvalue)                   (* axios.get(url, ...) *)
| PdfParseCall (data : Bytes) (max : option Number) (* pdfParse(data[, options]) *)
| ConsoleError (message : jsstring).              (* console.error(..., error) *)

(** A computation returns or throws an error carrying a message. *)
Inductive Outcome (A : Type) :=
| Return (a : A)
| Throw (message : jsstring).
Arguments Return {A} a.
Arguments Throw {A} message.

Definition M (A : Type) : Type := Outcome A * list Event.

Definition ret {A} (a : A) : M A := (Return a, []).
Definition throw {A} (message : jsstring) : M A := (Throw message, []).
Definition emit (e : Event) : M unit := (Return tt, [e]).

Definition bind {A B} (m : M A) (k : A -> M B) : M B :=
  match m with
  | (Return a, t) => let '(o, t') := k a in (o, t ++ t')
  | (Throw message, t) => (Throw message, t)
  end.

(** [try { m } catch (error) { h error.message }] *)
Definition try_catch {A} (m : M A) (h : jsstring -> M A) : M A :=
  match m with
  | (Return a, t) => (Return a, t)
  | (Throw message, t) => let '(o, t') := h message in (o, t ++ t')
  end.

(** A promise settled by the outside world, awaited. *)
Definition await {A} (settled : A + jsstring) : M A :=
  match settled with
  | inl a => ret a
  | inr message => throw message
  end.

(** An expression whose evaluation may throw the [TypeError] of a
    conversion. *)
Definition eval {A} (value : option A) : M A :=
  match value with
  | Some a => ret a
  | None => throw not_primitive
  end.

Declare Scope eff_scope.
Delimit Scope eff_scope with eff.
Notation "'let*' x ':=' m 'in' k" := (bind m (fun x => k))
  (at level 10, x name, m at level 100, k at level 200) : eff_scope.
Notation "'run' m 'in' k" := (bind m (fun _ => k))
  (at level 10, m at level 100, k at level 200) : eff_scope.

End Eff.

(* ===================================================================== *)
(** ** The [pdf-parse] dependency *)
(* ===================================================================== *)

Module PdfParse.
Import JS Eff.
Local Open Scope eff_scope.

(** What the handlers read of a parsed page: [item.str] of every entry of
    [textContent.items], and [pageData.pageNumber]. *)
Record TextItem := { str : jsstring }.
Record TextContent := { items : list TextItem }.
Record PageData := { pageNumber : Z; getTextContent : TextContent }.

(** A parsed document: the text content of its pages, in page order. *)
Abbreviation Document := (list TextContent).

Record Options := { max : Number; pagerender : PageData -> jsstring }.
Record Result := { text : jsstring }.

(** Modelled from the spec: the page numbering of the pdf-parse package,
    which is not part of [src/].  "Pages are 1-indexed": the pages of a
    document, numbered upwards from [n]. *)
Fixpoint pages_from (n : Z) (doc : Document) : list PageData :=
  match doc with
  | [] => []
  | tc :: rest =>
      {| pageNumber := n; getTextContent := tc |} :: pages_from (n + 1) rest
  end.

(** Modelled from the spec: the page limit of the pdf-parse package, which
    is not part of [src/].  "Parse the document structure page by page, up
    to maxPage total pages processed"; "if the document has fewer pages
    than maxPage, extraction simply stops at the document's last page". *)
Definition take_pages (max : Number) (pages : list PageData) : list PageData :=
  match max with
  | Fin z => firstn (Z.to_nat z) pages
  | Infinity => pages
  | NaN | NegInfinity => []
  end.

(** Modelled from the spec: the default page renderer of the pdf-parse
    package, which is not part of [src/].  Whole-document extraction:
    "every page's text fragments are extracted and concatenated in page
    order". *)
Definition render_page (pageData : PageData) : jsstring :=
  List.concat (List.map str (items (getTextContent pageData))).

(** Modelled from the spec: the entry point of the pdf-parse package, which
    is not part of [src/].  The document is loaded from the bytes (an
    unparsable document fails with the parser's message); the pages within
    the limit are rendered by the [pagerender] option, or by the default
    renderer when no options are given, and "concatenate[d], in page
    order, into the final output string" with "no explicit separator". *)
Definition pdfParse (getDocument : Bytes -> Document + jsstring)
    (dataBuffer : Bytes) (options : option Options) : M Result :=
  run emit (PdfParseCall dataBuffer (option_map max options)) in
  let* doc := await (getDocument dataBuffer) in
  let pages := pages_from 1 doc in
  ret {| text :=
          match options with
          | Some o => List.concat (List.map (pagerender o) (take_pages (max o) pages))
          | None => List.concat (List.map render_page pages)
          end |}.

End PdfParse.

(* ===================================================================== *)
(** ** The routes of [server.js] *)
(* ===================================================================== *)

Module Server.
Import JS Eff.
Local Open Scope eff_scope.

(** The outside world of one request: what [axios.get] settles to for a
    URL (the response body, or the message of the rejection) and what the
    PDF parser makes of a byte buffer. *)
Record World := {
  http_get : option qvalue -> Bytes + jsstring;
  getDocument : Bytes -> PdfParse.Document + jsstring
}.

(** [req]: only [req.query] is read. *)
Record Request := { query : gmap jsstring qvalue }.

Inductive Body :=
| ErrorJson (error : jsstring)              (* { error } *)
| FailureJson (error message : jsstring)    (* { error, message } *)
| TextJson (text : jsstring)                (* { text } *)
| StatusJson (status : jsstring).           (* { status } *)

Record Response := { status : Z; body : Body }.

(** [res.status(code).json(body)] and [res.json(body)]. *)
Definition res_status_json (code : Z) (b : Body) : M Response :=
  ret {| status := code; body := b |}.
Definition res_json (b : Body) : M Response := res_status_json 200 b.

Section Handlers.
Variable env : World.

(** [await axios.get(pdfUrl, { responseType: "arraybuffer", headers })],
    then [new Uint8Array(response.data)]. *)
Definition axios_get (pdfUrl : option qvalue) : M Bytes :=
  run emit (HttpGet pdfUrl) in await (http_get env pdfUrl).

(** [catch (error) { console.error(...); res.status(500).json({...}) }] *)
Definition on_error (message : jsstring) : M Response :=
  run emit (ConsoleError message) in
  res_status_json 500 (FailureJson (lit "Failed to process PDF") message).

(** [parseInt(req.query.max) || 100]; [None] when [parseInt] throws. *)
Definition max (req : Request) : option Number :=
  option_map (fun parsed => JS.or parsed (Fin 100))
    (parseInt (query req !! lit "max")).

(** [parseInt(req.query.min) || 1]; [None] when [parseInt] throws. *)
Definition min (req : Request) : option Number :=
  option_map (fun parsed => JS.or parsed (Fin 1))
    (parseInt (query req !! lit "min")).

(** [options.pagerender], closed over [min]. *)
Definition pagerender (min : Number) (pageData : PdfParse.PageData) : jsstring :=
  if JS.lt (Fin (PdfParse.pageNumber pageData)) min then []
  else
    let textContent := PdfParse.getTextContent pageData in
    join (lit " ") (List.map PdfParse.str (PdfParse.items textContent)).

(** [app.get("/api/pdf-text", ...)] *)
Definition pdf_text (req : Request) : M Response :=
  try_catch
    (let pdfUrl := query req !! lit "pdfUrl" in
     if negb (truthy_prop pdfUrl) then
       res_status_json 400 (ErrorJson (lit "Missing pdfUrl parameter"))
     else
       let* pdfData := axios_get pdfUrl in
       let* max := eval (max req) in
       let* min := eval (min req) in
       if JS.isNaN max || JS.lt max (Fin 1) then
         throw (lit "Invalid max page value")
       else if JS.isNaN min || JS.lt min (Fin 1) || JS.gt min max then
         throw (lit "Invalid min page value")
       else
         let options :=
           {| PdfParse.max := max; PdfParse.pagerender := pagerender min |} in
         let* data := PdfParse.pdfParse (getDocument env) pdfData (Some options) in
         let extractedText := or_string (PdfParse.text data) [] in
         res_json (TextJson (trim extractedText)))
    on_error.

(** [app.get("/api/pdf-text-all", ...)] *)
Definition pdf_text_all (req : Request) : M Response :=
  try_catch
    (let pdfUrl := query req !! lit "pdfUrl" in
     if negb (truthy_prop pdfUrl) then
       res_status_json 400 (ErrorJson (lit "Missing pdfUrl parameter"))
     else
       let* pdfData := axios_get pdfUrl in
       let* data := PdfParse.pdfParse (getDocument env) pdfData None in
       let extractedText := or_string (PdfParse.text data) [] in
       res_json (TextJson (trim extractedText)))
    on_error.

(** [app.get("/api/health", ...)] *)
Definition health (_ : Request) : M Response :=
  res_status_json 200 (StatusJson (lit "ok")).

End Handlers.

End Server.

(* ===================================================================== *)
(** ** The specification's vocabulary *)
(* ===================================================================== *)

Module Spec.
Import JS Eff Server.

(** The text fragments of a page, in structural order. *)
Definition fragments (tc : PdfParse.TextContent) : list jsstring :=
  List.map PdfParse.str (PdfParse.items tc).

(** What page number [n] contributes to a ranged extraction: nothing
    before [minPage], its fragments joined by a single space within
    [[minPage, maxPage]]; parsing stops after [maxPage]. *)
Definition page_contribution (minPage maxPage n : Z)
    (tc : PdfParse.TextContent) : jsstring :=
  if n <? minPage then []
  else if n <=? maxPage then join (lit " ") (fragments tc)
  else [].

(** The contributions of the pages of [doc], numbered from [n], in page
    order. *)
Fixpoint contributions (minPage maxPage n : Z) (doc : PdfParse.Document)
    : jsstring :=
  match doc with
  | [] => []
  | tc :: rest =>
      page_contribution minPage maxPage n tc
        ++ contributions minPage maxPage (n + 1) rest
  end.

(** ExtractionResult of a ranged request. *)
Definition ranged_text (minPage maxPage : Z) (doc : PdfParse.Document)
    : jsstring :=
  trim (contributions minPage maxPage 1 doc).

(** The extraction of page [k] alone: its fragments joined by a single
    space, trimmed; empty when the document has no page [k]. *)
Definition page_alone (k : Z) (doc : PdfParse.Document) : jsstring :=
  match doc !! Z.to_nat (k - 1) with
  | Some tc => trim (join (lit " ") (fragments tc))
  | None => []
  end.

(** Every page carries at most one text fragment. *)
Definition single_fragment_pages (doc : PdfParse.Document) : Prop :=
  Forall (fun tc => (length (PdfParse.items tc) <= 1)%nat) doc.

(** A value below zero: a negative integer or [-Infinity]. *)
Definition negative (x : Number) : bool := JS.lt x (Fin 0).

(** The 200 response carrying an extracted text. *)
Definition ok_text (text : jsstring) : Response :=
  {| status := 200; body := TextJson text |}.

(** The 400 response of a request without [pdfUrl]. *)
Definition missing_pdfUrl : Response :=
  {| status := 400; body := ErrorJson (lit "Missing pdfUrl parameter") |}.

(** The 500 response that carries the message of a failure. *)
Definition failed (message : jsstring) : Response :=
  {| status := 500;
     body := FailureJson (lit "Failed to process PDF") message |}.

(** A run of [/api/pdf-text] that fetched [pdfUrl] and then failed the
    validation of the page range with [message]: nothing is parsed. *)
Definition validation_failure (pdfUrl : option qvalue) (message : jsstring)
    : M Response :=
  (Return (failed message), [HttpGet pdfUrl; ConsoleError message]).

(** The HTTP status a handler answers with. *)
Definition status_of (m : M Response) : option Z :=
  match fst m with
  | Return r => Some (status r)
  | Throw _ => None
  end.

(** A run of [/api/pdf-text] that fetched [pdfUrl] and then could not
    convert [max] or [min] to a string: nothing is checked or parsed. *)
Definition unreadable_parameter (pdfUrl : option qvalue) : M Response :=
  (Return (failed not_primitive),
   [HttpGet pdfUrl; ConsoleError not_primitive]).

(** The page values of a request are invalid: [max] or [min] cannot be
    read, or the effective range fails the checks of the handler. *)
Definition range_invalid (req : Request) : bool :=
  match max req, min req with
  | Some max, Some min =>
      JS.isNaN max || JS.lt max (Fin 1)
      || JS.isNaN min || JS.lt min (Fin 1)
      || JS.gt min max
  | _, _ => true
  end.

(** A request whose query holds the given string parameters. *)
Definition request (params : list (string * string)) : Request :=
  {| query := list_to_map
       (List.map (fun '(k, v) => (lit k, QStr (lit v))) params) |}.

(** A page with the given fragments. *)
Definition page (strs : list string) : PdfParse.TextContent :=
  {| PdfParse.items := List.map (fun s => {| PdfParse.str := lit s |}) strs |}.

(** A world in which every URL serves the same bytes, which parse to
    [doc]. *)
Definition serving (doc : PdfParse.Document) : World :=
  {| http_get := fun _ => inl [];
     getDocument := fun _ => inl doc |}.

(** A world in which every fetch is rejected with [message]. *)
Definition unreachable (message : string) : World :=
  {| http_get := fun _ => inr (lit message);
     getDocument := fun _ => inl [] |}.

End Spec.

(* ===================================================================== *)
(** ** Sample documents and requests *)
(* ===================================================================== *)

Module Samples.
Import JS Eff Server Spec.
Local Open Scope string_scope.

Definition url : string := "https://x/doc.pdf".

(** Three pages; the outer pages carry two fragments. *)
Definition three_pages : PdfParse.Document :=
  [page ["a"; "b"]; page ["c"]; page ["d"; "e"]].

(** One page with two fragments. *)
Definition two_fragments : PdfParse.Document := [page ["a"; "b"]].

(** Three pages with at most one fragment each. *)
Definition sparse_pages : PdfParse.Document :=
  [page ["a"]; page []; page ["b"]].

(** [?pdfUrl=...&min=...&max=...] *)
Definition ranged (min max : string) : Request :=
  request [("pdfUrl", url); ("min", min); ("max", max)].

(** [?pdfUrl=...] *)
Definition plain : Request := request [("pdfUrl", url)].

(** [?pdfUrl=...&max=...] *)
Definition capped (max : string) : Request :=
  request [("pdfUrl", url); ("max", max)].

(** [?min=...&max=...]: no [pdfUrl]. *)
Definition anonymous (min max : string) : Request :=
  request [("min", min); ("max", max)].

Definition fetched : option qvalue := Some (QStr (lit url)).

(** The object that [qs] builds for [k[toString]=x]. *)
Definition with_toString : qvalue := QObj [(lit "toString", QStr (lit "x"))].

(** [?pdfUrl=...&max[toString]=x] *)
Definition object_max : Request :=
  {| query := list_to_map [(lit "pdfUrl", QStr (lit url));
                           (lit "max", with_toString)] |}.

(** [?pdfUrl=...&max=-1&min[toString]=x] *)
Definition negative_max_object_min : Request :=
  {| query := list_to_map [(lit "pdfUrl", QStr (lit url));
                           (lit "max", QStr (lit "-1"));
                           (lit "min", with_toString)] |}.

End Samples.

(* ===================================================================== *)
(** ** The earlier server *)
(* ===================================================================== *)

(** The handlers of the earlier version of the server
    ([src/unnamed/part_000]), where [/api/pdf-text] takes no page range. *)
Module Legacy.
Import JS Eff Server.
Local Open Scope eff_scope.

Section Handlers.
Variable env : World.

(** [app.get("/api/pdf-text", ...)] *)
Definition pdf_text (req : Request) : M Response :=
  try_catch
    (let pdfUrl := query req !! lit "pdfUrl" in
     if negb (truthy_prop pdfUrl) then
       res_status_json 400 (ErrorJson (lit "Missing pdfUrl parameter"))
     else
       let* pdfData := axios_get env pdfUrl in
       let* data := PdfParse.pdfParse (getDocument env) pdfData None in
       let extractedText := or_string (PdfParse.text data) [] in
       res_json (TextJson (trim extractedText)))
    on_error.

(** [app.get("/api/health", ...)] *)
Definition health (_ : Request) : M Response :=
  res_status_json 200 (StatusJson (lit "ok")).

End Handlers.

End Legacy.

(* ===================================================================== *)
(** ** The test page *)
(* ===================================================================== *)

(** The submit handler of the form of [src/api test/index.html]. *)
Module Client.
Import JS.

#[local] Set Warnings "-register-all".

(** A value as [JSON.parse] builds it.  A number is the double
    [mantissa * 2 ^ exponent]; an object is the list of its own
    properties. *)
Inductive Json :=
| JNull
| JBool (b : bool)
| JNum (mantissa exponent : Z)
| JStr (s : jsstring)
| JArr (elems : list Json)
| JObj (props : list (jsstring * Json)).

(** What the script reads of a [Response]: [ok], [status], and what
    [json()] settles to (the parsed body, or the message of the
    rejection). *)
Record FetchResponse := {
  ok : bool;
  status : N;
  json : Json + jsstring
}.

(** The browser of one submission: what [fetch] settles to for a URL,
    and the messages this engine gives to the [URIError] of
    [encodeURIComponent] and to the [TypeError] of reading a property of
    [null]. *)
Record Browser := {
  fetch : jsstring -> FetchResponse + jsstring;
  URIError_message : jsstring;
  TypeError_message : jsstring
}.

(** What the handler does to the page and to the outside. *)
Inductive Event :=
| PreventDefault                    (* e.preventDefault() *)
| SetTextContent (value : Json)     (* outputElement.textContent = value *)
| Fetch (url : jsstring)            (* fetch(url) *)
| ResponseJson                      (* response.json() *)
| ConsoleError (message : jsstring). (* console.error('Error:', error) *)

Definition M (A : Type) : Type := Eff.Outcome A * list Event.

Definition ret {A} (a : A) : M A := (Eff.Return a, []).
Definition throw {A} (message : jsstring) : M A := (Eff.Throw message, []).
Definition emit (e : Event) : M unit := (Eff.Return tt, [e]).

Definition bind {A B} (m : M A) (k : A -> M B) : M B :=
  match m with
  | (Eff.Return a, t) => let '(o, t') := k a in (o, t ++ t')
  | (Eff.Throw message, t) => (Eff.Throw message, t)
  end.

Definition try_catch {A} (m : M A) (h : jsstring -> M A) : M A :=
  match m with
  | (Eff.Return a, t) => (Eff.Return a, t)
  | (Eff.Throw message, t) => let '(o, t') := h message in (o, t ++ t')
  end.

Definition await {A} (settled : A + jsstring) : M A :=
  match settled with
  | inl a => ret a
  | inr message => throw message
  end.

Declare Scope client_scope.
Delimit Scope client_scope with client.
Notation "'let*' x ':=' m 'in' k" := (bind m (fun x => k))
  (at level 10, x name, m at level 100, k at level 200) : client_scope.
Notation "'run' m 'in' k" := (bind m (fun _ => k))
  (at level 10, m at level 100, k at level 200) : client_scope.
Local Open Scope client_scope.
Local Open Scope N_scope.

(** The characters [encodeURIComponent] leaves as they are: letters,
    digits and [- _ . ! ~ * ' ( )]. *)
Definition uriUnreserved (c : N) : bool :=
  ((65 <=? c) && (c <=? 90)) || ((97 <=? c) && (c <=? 122))
  || ((48 <=? c) && (c <=? 57))
  || (c =? 45) || (c =? 95) || (c =? 46) || (c =? 33) || (c =? 126)
  || (c =? 42) || (c =? 39) || (c =? 40) || (c =? 41).

Definition isLeadingSurrogate (c : N) : bool := (55296 <=? c) && (c <=? 56319).
Definition isTrailingSurrogate (c : N) : bool := (56320 <=? c) && (c <=? 57343).

(** The UTF-8 octets of a code point. *)
Definition utf8 (cp : N) : list N :=
  if cp <? 128 then [cp]
  else if cp <? 2048 then [192 + cp / 64; 128 + cp mod 64]
  else if cp <? 65536 then
    [224 + cp / 4096; 128 + (cp / 64) mod 64; 128 + cp mod 64]
  else
    [240 + cp / 262144; 128 + (cp / 4096) mod 64; 128 + (cp / 64) mod 64;
     128 + cp mod 64].

(** An upper-case hexadecimal digit. *)
Definition hexDigit (n : N) : N := if n <? 10 then 48 + n else 55 + n.

(** ["%XY"] for an octet. *)
Definition percent (octet : N) : jsstring :=
  [37; hexDigit (octet / 16); hexDigit (octet mod 16)].

Definition escape (cp : N) : jsstring := flat_map percent (utf8 cp).

(** [encodeURIComponent]: [None] is the [URIError] thrown at an unpaired
    surrogate. *)
Fixpoint encodeURIComponent (s : jsstring) : option jsstring :=
  match s with
  | [] => Some []
  | c :: rest =>
      if uriUnreserved c then option_map (cons c) (encodeURIComponent rest)
      else if isTrailingSurrogate c then None
      else if isLeadingSurrogate c then
        match rest with
        | d :: rest' =>
            if isTrailingSurrogate d then
              option_map
                (app (escape ((c - 55296) * 1024 + (d - 56320) + 65536)))
                (encodeURIComponent rest')
            else None
        | [] => None
        end
      else option_map (app (escape c)) (encodeURIComponent rest)
  end.

Fixpoint uint_digits (u : Decimal.uint) : jsstring :=
  match u with
  | Decimal.Nil => []
  | Decimal.D0 u => 48 :: uint_digits u
  | Decimal.D1 u => 49 :: uint_digits u
  | Decimal.D2 u => 50 :: uint_digits u
  | Decimal.D3 u => 51 :: uint_digits u
  | Decimal.D4 u => 52 :: uint_digits u
  | Decimal.D5 u => 53 :: uint_digits u
  | Decimal.D6 u => 54 :: uint_digits u
  | Decimal.D7 u => 55 :: uint_digits u
  | Decimal.D8 u => 56 :: uint_digits u
  | Decimal.D9 u => 57 :: uint_digits u
  end.

(** The string of a status code inside a template literal. *)
Definition decimal (n : N) : jsstring := uint_digits (N.to_uint n).

(** An own property of a parsed object. *)
Fixpoint own_property (key : jsstring) (props : list (jsstring * Json))
    : option Json :=
  match props with
  | [] => None
  | (k, v) :: props' =>
      if decide (k = key) then Some v else own_property key props'
  end.

(** ToBoolean; [None] is [undefined]. *)
Definition truthy_value (v : option Json) : bool :=
  match v with
  | None | Some JNull => false
  | Some (JBool b) => b
  | Some (JNum mantissa _) => negb (mantissa =? 0)%Z
  | Some (JStr s) => match s with [] => false | _ => true end
  | Some (JArr _) | Some (JObj _) => true
  end.

Definition api : jsstring :=
  lit "https://pdf2text-umber.vercel.app/api/pdf-text?pdfUrl=".

Section Handler.
Variable browser : Browser.

(** [data.text]: a [TypeError] on [null], [undefined] on a value that is
    not an object or has no such property. *)
Definition data_text (data : Json) : M (option Json) :=
  match data with
  | JNull => throw (TypeError_message browser)
  | JObj props => ret (own_property (lit "text") props)
  | _ => ret None
  end.

(** The listener of the form's [submit] event; [pdfUrl] is the value of
    the input. *)
Definition submit (pdfUrl : jsstring) : M unit :=
  run emit PreventDefault in
  run emit (SetTextContent (JStr (lit "Loading..."))) in
  try_catch
    (let* encoded :=
       match encodeURIComponent pdfUrl with
       | Some encoded => ret encoded
       | None => throw (URIError_message browser)
       end in
     let apiUrl := api ++ encoded in
     let* response := (run emit (Fetch apiUrl) in await (fetch browser apiUrl)) in
     if negb (ok response) then
       throw (lit "HTTP error! Status: " ++ decimal (status response))
     else
       let* data := (run emit ResponseJson in await (json response)) in
       let* text := data_text data in
       match text with
       | Some value =>
           if truthy_value text then emit (SetTextContent value)
           else emit (SetTextContent
                        (JStr (lit "No text extracted or invalid response.")))
       | None =>                      (* undefined is falsy *)
           emit (SetTextContent
                   (JStr (lit "No text extracted or invalid response.")))
       end)
    (fun message =>
       run emit (SetTextContent (JStr (lit "Error: " ++ message))) in
       emit (ConsoleError message)).

End Handler.

(** The values written to [textContent], in order. *)
Fixpoint text_writes (t : list Event) : list Json :=
  match t with
  | SetTextContent value :: t' => value :: text_writes t'
  | _ :: t' => text_writes t'
  | [] => []
  end.

(** The URLs fetched, in order. *)
Fixpoint fetched_urls (t : list Event) : list jsstring :=
  match t with
  | Fetch url :: t' => url :: fetched_urls t'
  | _ :: t' => fetched_urls t'
  | [] => []
  end.

(** The values the script writes. *)
Definition loading : Json := JStr (lit "Loading...").
Definition fallback : Json :=
  JStr (lit "No text extracted or invalid response.").
Definition error_shown (message : jsstring) : Json :=
  JStr (lit "Error: " ++ message).

(** What is shown for a parsed body whose [text] property is [text]. *)
Definition display (text : option Json) : Json :=
  match text with
  | Some value => if truthy_value text then value else fallback
  | None => fallback
  end.

(** The trace of a submission that ends in the [catch] block, after the
    calls [calls]. *)
Definition caught (calls : list Event) (message : jsstring) : M unit :=
  (Eff.Return tt,
   PreventDefault :: SetTextContent loading
     :: calls ++ [SetTextContent (error_shown message); ConsoleError message]).

(** Every element is a sequence of UTF-16 code units. *)
Definition code_units (s : jsstring) : Prop := Forall (fun c => c < 65536) s.

(** A code unit of a surrogate pair. *)
Definition isSurrogate (c : N) : bool :=
  isLeadingSurrogate c || isTrailingSurrogate c.

(** A character that cannot end or split a query parameter: an
    unreserved character or the percent sign of an escape. *)
Definition uri_safe (c : N) : Prop := uriUnreserved c = true \/ c = 37.

(** What the page shows once the handler is done. *)
Definition shown (m : M unit) : option Json :=
  List.last (List.map Some (text_writes (snd m))) None.

End Client.

(** The test page talking to the server: what the script's [fetch] sees
    of an answer sent with [res.status(code).json(body)]. *)
Module Wire.
Import JS.

(** The body, serialised by [res.json] and parsed back by
    [response.json()]. *)
Definition to_json (b : Server.Body) : Client.Json :=
  match b with
  | Server.ErrorJson error =>
      Client.JObj [(lit "error", Client.JStr error)]
  | Server.FailureJson error message =>
      Client.JObj [(lit "error", Client.JStr error);
                   (lit "message", Client.JStr message)]
  | Server.TextJson text =>
      Client.JObj [(lit "text", Client.JStr text)]
  | Server.StatusJson status =>
      Client.JObj [(lit "status", Client.JStr status)]
  end.

(** [response.ok] holds for the statuses 200 to 299. *)
Definition served (r : Server.Response) : Client.FetchResponse :=
  {| Client.ok := (200 <=? Server.status r) && (Server.status r <=? 299);
     Client.status := Z.to_N (Server.status r);
     Client.json := inl (to_json (Server.body r)) |}.

(** What the page ends up showing for an answer of the server: the text
    if there is one, the fallback for an empty text, and for a 400 or 500
    answer only its status. *)
Definition page_for (r : Server.Response) : Client.Json :=
  match Server.body r with
  | Server.TextJson [] => Client.fallback
  | Server.TextJson text => Client.JStr text
  | Server.ErrorJson _ =>
      Client.error_shown (lit "HTTP error! Status: 400")
  | Server.FailureJson _ _ =>
      Client.error_shown (lit "HTTP error! Status: 500")
  | Server.StatusJson _ => Client.fallback
  end.

End Wire.

(* ===================================================================== *)
(** ** Observations on a run *)
(* ===================================================================== *)

Module Obs.
Import JS Eff Server Spec.

(** The first code unit, if there is one, is not white space. *)
Definition starts_clean (s : jsstring) : Prop :=
  match s with
  | c :: _ => isWhiteSpace c = false
  | [] => True
  end.

(** No white space at either end. *)
Definition trimmed (s : jsstring) : Prop :=
  starts_clean s /\ starts_clean (rev s).

(** The messages written with [console.error], in order. *)
Fixpoint console_errors (t : list Event) : list jsstring :=
  match t with
  | ConsoleError message :: t' => message :: console_errors t'
  | _ :: t' => console_errors t'
  | [] => []
  end.

(** The URLs requested with [axios.get], in order. *)
Fixpoint fetches (t : list Event) : list (option qvalue) :=
  match t with
  | HttpGet url :: t' => url :: fetches t'
  | _ :: t' => fetches t'
  | [] => []
  end.

(** The answers an extraction route can give. *)
Inductive answer : Response -> Prop :=
| answer_text text :
    answer {| status := 200; body := TextJson text |}
| answer_missing :
    answer {| status := 400;
              body := ErrorJson (lit "Missing pdfUrl parameter") |}
| answer_failed message :
    answer {| status := 500;
              body := FailureJson (lit "Failed to process PDF") message |}.

(** The message a response passes on to the client, if any. *)
Definition failure_message (r : Response) : list jsstring :=
  match body r with
  | FailureJson _ message => [message]
  | _ => []
  end.

(** A number that is 1 or more. *)
Definition at_least_one (x : Number) : Prop :=
  match x with
  | Fin z => 1 <= z
  | Infinity => True
  | NaN | NegInfinity => False
  end.

(** The text fragments of the pages numbered [minPage] to [maxPage]. *)
Definition pages_in_range (minPage maxPage : Z) (doc : PdfParse.Document)
    : PdfParse.Document :=
  firstn (Z.to_nat (maxPage - minPage + 1)) (skipn (Z.to_nat (minPage - 1)) doc).

End Obs.

(* ===================================================================== *)
(** ** More samples *)
(* ===================================================================== *)

Module PageSamples.
Import JS Eff Server Spec.
Local Open Scope string_scope.

(** One page whose fragments carry white space at the outer ends. *)
Definition padded_page : PdfParse.Document := [page [" a"; "b "]].

(** Two pages; the second is the second page of [Samples.three_pages]. *)
Definition other_first_page : PdfParse.Document := [page ["x"]; page ["c"]].

(** A world in which every URL serves bytes that do not parse. *)
Definition corrupt (message : string) : World :=
  {| http_get := fun _ => inl [];
     getDocument := fun _ => inr (lit message) |}.

(** A browser whose every [fetch] settles to [settled]. *)
Definition answering (settled : Client.FetchResponse + jsstring)
    : Client.Browser :=
  {| Client.fetch := fun _ => settled;
     Client.URIError_message := lit "URI malformed";
     Client.TypeError_message :=
       lit "Cannot read properties of null (reading 'text')" |}.

(** A 404 answer with an HTML body. *)
Definition not_found : Client.FetchResponse :=
  {| Client.ok := false; Client.status := 404%N;
     Client.json := inr (lit "Unexpected token '<'") |}.

(** An input that tries to smuggle a parameter. *)
Definition smuggling : jsstring := lit "https://x/a.pdf&min=5".

End PageSamples.

(* ===================================================================== *)
(** ** Properties *)
(* ===================================================================== *)

Import JS Eff Server Spec.

Section Stages.
Variable env : World.
Variable req : Request.

Let pdfUrl := query req !! lit "pdfUrl".

(** Without a usable [pdfUrl] the ranged route answers 400 at once. *)
Lemma pdf_text_no_url :
  truthy_prop pdfUrl = false ->
  pdf_text env req = (Return missing_pdfUrl, []).
Proof.
  intros H. unfold pdf_text. fold pdfUrl. rewrite H. reflexivity.
Qed.

Lemma pdf_text_all_no_url :
  truthy_prop pdfUrl = false ->
  pdf_text_all env req = (Return missing_pdfUrl, []).
Proof.
  intros H. unfold pdf_text_all. fold pdfUrl. rewrite H. reflexivity.
Qed.

(** A rejected fetch ends the ranged route before the range is read. *)
Lemma pdf_text_fetch_failed message :
  truthy_prop pdfUrl = true ->
  http_get env pdfUrl = inr message ->
  pdf_text env req
  = (Return (failed message), [HttpGet pdfUrl; ConsoleError message]).
Proof.
  intros H G. unfold pdf_text, axios_get. fold pdfUrl. rewrite H, G.
  reflexivity.
Qed.

(** After a successful fetch the ranged route reads and checks the range
    and then hands the bytes to the parser. *)
Lemma pdf_text_fetched data :
  truthy_prop pdfUrl = true ->
  http_get env pdfUrl = inl data ->
  pdf_text env req
  = match max req, min req with
    | Some max, Some min =>
        if JS.isNaN max || JS.lt max (Fin 1) then
          validation_failure pdfUrl (lit "Invalid max page value")
        else if JS.isNaN min || JS.lt min (Fin 1) || JS.gt min max then
          validation_failure pdfUrl (lit "Invalid min page value")
        else
          match getDocument env data with
          | inl doc =>
              (Return (ok_text (trim (List.concat
                 (List.map (pagerender min)
                    (PdfParse.take_pages max (PdfParse.pages_from 1 doc)))))),
               [HttpGet pdfUrl; PdfParseCall data (Some max)])
          | inr message =>
              (Return (failed message),
               [HttpGet pdfUrl; PdfParseCall data (Some max);
                ConsoleError message])
          end
    | _, _ => unreadable_parameter pdfUrl
    end.
Proof.
  intros H G. unfold pdf_text, axios_get. fold pdfUrl. rewrite H, G.
  cbn [negb].
  destruct (max req) as [max|]; [|reflexivity].
  destruct (min req) as [min|]; [|reflexivity].
  cbn [eval bind emit await ret app].
  destruct (JS.isNaN max || JS.lt max (Fin 1)); [reflexivity|].
  destruct (JS.isNaN min || JS.lt min (Fin 1) || JS.gt min max);
    [reflexivity|].
  unfold PdfParse.pdfParse.
  cbn [bind emit await ret throw app option_map PdfParse.max].
  destruct (getDocument env data) as [doc|message]; [|reflexivity].
  cbn [await ret bind try_catch res_json res_status_json app
       PdfParse.text PdfParse.max PdfParse.pagerender].
  unfold ok_text, or_string.
  destruct (List.concat _); reflexivity.
Qed.

Lemma pdf_text_all_fetch_failed message :
  truthy_prop pdfUrl = true ->
  http_get env pdfUrl = inr message ->
  pdf_text_all env req
  = (Return (failed message), [HttpGet pdfUrl; ConsoleError message]).
Proof.
  intros H G. unfold pdf_text_all, axios_get. fold pdfUrl. rewrite H, G.
  reflexivity.
Qed.

(** The whole-document route parses whatever was fetched, with the
    defaults of the parser. *)
Lemma pdf_text_all_fetched data :
  truthy_prop pdfUrl = true ->
  http_get env pdfUrl = inl data ->
  pdf_text_all env req
  = match getDocument env data with
    | inl doc =>
        (Return (ok_text (trim (List.concat
           (List.map PdfParse.render_page (PdfParse.pages_from 1 doc))))),
         [HttpGet pdfUrl; PdfParseCall data None])
    | inr message =>
        (Return (failed message),
         [HttpGet pdfUrl; PdfParseCall data None; ConsoleError message])
    end.
Proof.
  intros H G. unfold pdf_text_all, axios_get. fold pdfUrl. rewrite H, G.
  unfold PdfParse.pdfParse.
  cbn [negb bind emit await ret throw app option_map].
  destruct (getDocument env data) as [doc|message]; [|reflexivity].
  cbn [await ret bind try_catch res_json res_status_json app PdfParse.text].
  unfold ok_text, or_string.
  destruct (List.concat _); reflexivity.
Qed.

End Stages.

(** *** Numbers *)

Lemma or_truthy x d : truthy x = true -> JS.or x d = x.
Proof. unfold JS.or. now intros ->. Qed.

Lemma or_falsy x d : truthy x = false -> JS.or x d = d.
Proof. unfold JS.or. now intros ->. Qed.

Lemma truthy_Fin z : z <> 0 -> truthy (Fin z) = true.
Proof. intros H. cbn. apply negb_true_iff, Z.eqb_neq, H. Qed.

Lemma negative_truthy x : negative x = true -> truthy x = true.
Proof.
  destruct x as [|z| |]; cbn; try congruence.
  intros H. apply Z.ltb_lt in H. apply negb_true_iff, Z.eqb_neq. lia.
Qed.

(** A value that is not negative passes the check on [max] once the
    default is in place. *)
Lemma max_check_default x :
  negative x = false ->
  JS.isNaN (JS.or x (Fin 100)) || JS.lt (JS.or x (Fin 100)) (Fin 1) = false.
Proof.
  destruct x as [|z| |]; cbn; try reflexivity; try congruence.
  intros H. apply Z.ltb_ge in H. unfold JS.or. cbn.
  destruct (Z.eqb_spec z 0); cbn; [reflexivity|].
  apply Z.ltb_ge. lia.
Qed.

Lemma max_check_negative x :
  negative x = true ->
  JS.isNaN (JS.or x (Fin 100)) || JS.lt (JS.or x (Fin 100)) (Fin 1) = true.
Proof.
  intros H. rewrite (or_truthy _ _ (negative_truthy _ H)).
  destruct x as [|z| |]; cbn in *; try congruence.
  apply Z.ltb_lt in H. apply Z.ltb_lt. lia.
Qed.

(** The check on [min], given an effective [max] that passed its own. *)
Lemma min_check x m :
  JS.isNaN m || JS.lt m (Fin 1) = false ->
  JS.isNaN (JS.or x (Fin 1)) || JS.lt (JS.or x (Fin 1)) (Fin 1)
    || JS.gt (JS.or x (Fin 1)) m
  = negative x || JS.gt (JS.or x (Fin 1)) m.
Proof.
  intros Hm.
  destruct x as [|z| |]; try reflexivity.
  unfold JS.or. cbn [truthy].
  destruct (Z.eqb_spec z 0) as [->|Hz]; cbn [negb]; [reflexivity|].
  cbn. f_equal.
  destruct (Z.ltb_spec z 1), (Z.ltb_spec z 0); try reflexivity; lia.
Qed.

(** *** Pages *)

Lemma contributions_past minPage maxPage n doc :
  maxPage < n -> contributions minPage maxPage n doc = [].
Proof.
  revert n. induction doc as [|tc rest IH]; intros n H; [reflexivity|].
  cbn [contributions]. rewrite IH by lia.
  unfold page_contribution.
  destruct (n <? minPage); [reflexivity|].
  destruct (Z.leb_spec n maxPage); [lia|reflexivity].
Qed.

(** The parser's loop with the handler's [pagerender] computes the
    contributions of the specification. *)
Lemma pagerender_prefix minPage doc : forall n k,
  List.concat (List.map (pagerender (Fin minPage))
                 (firstn k (PdfParse.pages_from n doc)))
  = contributions minPage (n + Z.of_nat k - 1) n doc.
Proof.
  induction doc as [|tc rest IH]; intros n k.
  - now destruct k.
  - destruct k as [|k].
    + symmetry. apply contributions_past. lia.
    + cbn [PdfParse.pages_from firstn List.map List.concat contributions].
      rewrite IH. f_equal.
      * unfold pagerender, page_contribution, fragments. cbn.
        destruct (n <? minPage); [reflexivity|].
        destruct (Z.leb_spec n (n + Z.of_nat (S k) - 1)); [reflexivity|lia].
      * f_equal. lia.
Qed.

Lemma contributions_single k doc : forall n,
  n <= k ->
  contributions k k n doc
  = match doc !! Z.to_nat (k - n) with
    | Some tc => join (lit " ") (fragments tc)
    | None => []
    end.
Proof.
  induction doc as [|tc rest IH]; intros n H; [reflexivity|].
  cbn [contributions]. unfold page_contribution.
  destruct (Z.ltb_spec n k) as [Hlt|Hge].
  - rewrite IH by lia.
    replace (Z.to_nat (k - n)) with (S (Z.to_nat (k - (n + 1)))) by lia.
    reflexivity.
  - assert (n = k) as -> by lia.
    rewrite Z.leb_refl, contributions_past, app_nil_r by lia.
    now rewrite Z.sub_diag.
Qed.

Lemma pages_from_length doc : forall n,
  length (PdfParse.pages_from n doc) = length doc.
Proof.
  induction doc as [|tc rest IH]; intros n; [reflexivity|].
  cbn. now rewrite IH.
Qed.

Lemma join_single sep (l : list jsstring) :
  (length l <= 1)%nat -> join sep l = List.concat l.
Proof.
  destruct l as [|x [|y l]]; cbn; intros H;
    [reflexivity | now rewrite app_nil_r | lia].
Qed.

(** On pages with at most one fragment the handler's renderer and the
    parser's default renderer agree. *)
Lemma pagerender_default doc : forall n,
  1 <= n ->
  single_fragment_pages doc ->
  List.map (pagerender (Fin 1)) (PdfParse.pages_from n doc)
  = List.map PdfParse.render_page (PdfParse.pages_from n doc).
Proof.
  induction doc as [|tc rest IH]; intros n Hn Hdoc; [reflexivity|].
  apply Forall_cons in Hdoc as [Htc Hrest].
  cbn [PdfParse.pages_from List.map]. rewrite IH by (lia || assumption).
  f_equal. unfold pagerender, PdfParse.render_page. cbn.
  destruct (Z.ltb_spec n 1); [lia|].
  apply join_single. now rewrite length_map.
Qed.

Section Claims.
Variable env : World.

(** C1: for every request to [/api/pdf-text] whose [min] and [max]
    parameters parse to positive integers with [min <= max], and whose
    fetched document parses, the returned text is: the empty string for
    each page numbered below [min], the fragments joined by a single
    space for each page numbered within [[min, max]], all in page order
    and concatenated, the result trimmed.  The page loop is the one of the
    pdf-parse model. *)
Theorem ranged_extraction req data doc minPage maxPage :
  truthy_prop (query req !! lit "pdfUrl") = true ->
  http_get env (query req !! lit "pdfUrl") = inl data ->
  getDocument env data = inl doc ->
  parseInt (query req !! lit "min") = Some (Fin minPage) ->
  parseInt (query req !! lit "max") = Some (Fin maxPage) ->
  1 <= minPage <= maxPage ->
  pdf_text env req
  = (Return (ok_text (ranged_text minPage maxPage doc)),
     [HttpGet (query req !! lit "pdfUrl");
      PdfParseCall data (Some (Fin maxPage))]).
Proof.
  intros Hurl Hget Hdoc Hmin Hmax Hrange.
  rewrite (pdf_text_fetched env req data Hurl Hget).
  unfold max, min. rewrite Hmin, Hmax. cbn [option_map].
  rewrite !or_truthy by (apply truthy_Fin; lia).
  cbn [JS.isNaN JS.lt JS.gt orb].
  destruct (Z.ltb_spec maxPage 1); [lia|].
  destruct (Z.ltb_spec minPage 1); [lia|].
  destruct (Z.ltb_spec maxPage minPage); [lia|].
  cbn [orb]. rewrite Hdoc. cbn [PdfParse.take_pages].
  rewrite pagerender_prefix. unfold ranged_text.
  now replace (1 + Z.of_nat (Z.to_nat maxPage) - 1) with maxPage by lia.
Qed.

(** C7: for every [k >= 1], a request to [/api/pdf-text] with
    [min = max = k] returns exactly the extracted text of page [k] alone
    (its fragments joined by a single space, trimmed; nothing when the
    document stops before page [k]); the text is determined by the
    document and [k]: any other such request against a document with the
    same content, whatever the rest of the request and of the world,
    yields the identical response. *)
Theorem single_page_extraction req data doc k :
  truthy_prop (query req !! lit "pdfUrl") = true ->
  http_get env (query req !! lit "pdfUrl") = inl data ->
  getDocument env data = inl doc ->
  parseInt (query req !! lit "min") = Some (Fin k) ->
  parseInt (query req !! lit "max") = Some (Fin k) ->
  1 <= k ->
  fst (pdf_text env req) = Return (ok_text (page_alone k doc))
  /\ forall env' req' data',
       truthy_prop (query req' !! lit "pdfUrl") = true ->
       http_get env' (query req' !! lit "pdfUrl") = inl data' ->
       getDocument env' data' = inl doc ->
       parseInt (query req' !! lit "min") = Some (Fin k) ->
       parseInt (query req' !! lit "max") = Some (Fin k) ->
       fst (pdf_text env' req') = fst (pdf_text env req).
Proof.
  intros Hurl Hget Hdoc Hmin Hmax Hk.
  assert (Hone : forall e r d,
    truthy_prop (query r !! lit "pdfUrl") = true ->
    http_get e (query r !! lit "pdfUrl") = inl d ->
    getDocument e d = inl doc ->
    parseInt (query r !! lit "min") = Some (Fin k) ->
    parseInt (query r !! lit "max") = Some (Fin k) ->
    fst (pdf_text e r) = Return (ok_text (page_alone k doc))).
  { intros e r d Hu Hg Hd Hmi Hma.
    rewrite (pdf_text_fetched e r d Hu Hg).
    unfold max, min. rewrite Hmi, Hma. cbn [option_map].
    rewrite !or_truthy by (apply truthy_Fin; lia).
    cbn [JS.isNaN JS.lt JS.gt orb].
    destruct (Z.ltb_spec k 1); [lia|]. rewrite Z.ltb_irrefl.
    cbn [orb]. rewrite Hd. cbn [PdfParse.take_pages fst].
    rewrite pagerender_prefix.
    replace (1 + Z.of_nat (Z.to_nat k) - 1) with k by lia.
    rewrite contributions_single by lia.
    unfold page_alone. now destruct (doc !! Z.to_nat (k - 1)). }
  split; [now apply (Hone env req data)|].
  intros env' req' data' Hu Hg Hd Hmi Hma.
  rewrite (Hone env' req' data'), (Hone env req data); auto.
Qed.

(** C2: a request to either extraction route without a [pdfUrl] query
    parameter is answered with HTTP 400 and an error body, whatever the
    other parameters; nothing is fetched and nothing is parsed. *)
Theorem missing_pdfUrl_rejected req :
  query req !! lit "pdfUrl" = None ->
  pdf_text env req
  = (Return {| status := 400;
               body := ErrorJson (lit "Missing pdfUrl parameter") |}, [])
  /\ pdf_text_all env req
     = (Return {| status := 400;
                  body := ErrorJson (lit "Missing pdfUrl parameter") |}, []).
Proof.
  intros H. split.
  - apply pdf_text_no_url. now rewrite H.
  - apply pdf_text_all_no_url. now rewrite H.
Qed.

(** C3, amended: on [/api/pdf-text] a missing [pdfUrl] is reported as
    HTTP 400 with a short error string; an invalid [max] or [min] (a
    value that cannot be converted to a string, a [max] or [min] below 1,
    a [min] above [max]), met once the document has been fetched, is
    reported as HTTP 500 with the label "Failed to process PDF" and the
    message of the failure: that of the failed check or that of the
    [TypeError] of the conversion. *)
Theorem client_error_statuses req :
  (truthy_prop (query req !! lit "pdfUrl") = false ->
   pdf_text env req
   = (Return {| status := 400;
                body := ErrorJson (lit "Missing pdfUrl parameter") |}, []))
  /\ (forall data,
       truthy_prop (query req !! lit "pdfUrl") = true ->
       http_get env (query req !! lit "pdfUrl") = inl data ->
       range_invalid req = true ->
       exists message,
         (message = lit "Invalid max page value"
          \/ message = lit "Invalid min page value"
          \/ message = lit "Cannot convert object to primitive value")
         /\ fst (pdf_text env req)
            = Return {| status := 500;
                        body := FailureJson (lit "Failed to process PDF")
                                  message |}).
Proof.
  split; [apply pdf_text_no_url|].
  intros data Hurl Hget Hbad.
  rewrite (pdf_text_fetched env req data Hurl Hget).
  unfold range_invalid in Hbad.
  destruct (max req) as [mx|];
    [|eexists; split; [right; right; reflexivity|reflexivity]].
  destruct (min req) as [mn|];
    [|eexists; split; [right; right; reflexivity|reflexivity]].
  destruct (JS.isNaN mx || JS.lt mx (Fin 1)).
  - eexists; split; [left; reflexivity|reflexivity].
  - rewrite orb_false_l, <- !orb_assoc in Hbad. rewrite <- !orb_assoc.
    rewrite Hbad.
    eexists; split; [right; left; reflexivity|reflexivity].
Qed.

(** C4, amended: on [/api/pdf-text], once the document has been fetched,
    a [max] that parses to a positive integer and a [min] that parses to
    a greater integer are answered with HTTP 500 and the message
    "Invalid min page value". *)
Theorem min_above_max req data minPage maxPage :
  truthy_prop (query req !! lit "pdfUrl") = true ->
  http_get env (query req !! lit "pdfUrl") = inl data ->
  parseInt (query req !! lit "min") = Some (Fin minPage) ->
  parseInt (query req !! lit "max") = Some (Fin maxPage) ->
  1 <= maxPage ->
  maxPage < minPage ->
  pdf_text env req
  = (Return {| status := 500;
               body := FailureJson (lit "Failed to process PDF")
                         (lit "Invalid min page value") |},
     [HttpGet (query req !! lit "pdfUrl");
      ConsoleError (lit "Invalid min page value")]).
Proof.
  intros Hurl Hget Hmin Hmax H1 Hlt.
  rewrite (pdf_text_fetched env req data Hurl Hget).
  unfold max, min. rewrite Hmin, Hmax. cbn [option_map].
  rewrite !or_truthy by (apply truthy_Fin; lia).
  cbn [JS.isNaN JS.lt JS.gt orb].
  destruct (Z.ltb_spec maxPage 1); [lia|].
  destruct (Z.ltb_spec maxPage minPage); [|lia].
  now rewrite orb_true_r.
Qed.

(** C5, amended: on [/api/pdf-text], once the document has been fetched,
    a [max] that parses to a negative value, beside a [min] that
    [parseInt] can read, is answered with HTTP 500 and the message
    "Invalid max page value". *)
Theorem negative_max req data parsed_max parsed_min :
  truthy_prop (query req !! lit "pdfUrl") = true ->
  http_get env (query req !! lit "pdfUrl") = inl data ->
  parseInt (query req !! lit "max") = Some parsed_max ->
  parseInt (query req !! lit "min") = Some parsed_min ->
  negative parsed_max = true ->
  pdf_text env req
  = (Return {| status := 500;
               body := FailureJson (lit "Failed to process PDF")
                         (lit "Invalid max page value") |},
     [HttpGet (query req !! lit "pdfUrl");
      ConsoleError (lit "Invalid max page value")]).
Proof.
  intros Hurl Hget Hmax Hmin Hneg.
  rewrite (pdf_text_fetched env req data Hurl Hget).
  unfold max, min. rewrite Hmax, Hmin. cbn [option_map].
  now rewrite (max_check_negative _ Hneg).
Qed.

(** C6, amended: for every parsable n-page document whose pages carry at
    most one text fragment each, [/api/pdf-text] with [min=1] and [max=n]
    answers exactly as [/api/pdf-text-all] does for the same [pdfUrl]. *)
Theorem ranged_covers_whole req req' data doc :
  truthy_prop (query req !! lit "pdfUrl") = true ->
  query req' !! lit "pdfUrl" = query req !! lit "pdfUrl" ->
  http_get env (query req !! lit "pdfUrl") = inl data ->
  getDocument env data = inl doc ->
  parseInt (query req !! lit "min") = Some (Fin 1) ->
  parseInt (query req !! lit "max") = Some (Fin (Z.of_nat (length doc))) ->
  single_fragment_pages doc ->
  fst (pdf_text env req) = fst (pdf_text_all env req').
Proof.
  intros Hurl Hsame Hget Hdoc Hmin Hmax Hsingle.
  rewrite (pdf_text_fetched env req data Hurl Hget).
  rewrite (pdf_text_all_fetched env req' data) by now rewrite Hsame.
  rewrite Hdoc.
  assert (Hm : exists z,
    max req = Some (Fin z) /\ Z.of_nat (length doc) <= z /\ 1 <= z).
  { unfold max. rewrite Hmax. cbn [option_map]. unfold JS.or. cbn [truthy].
    destruct (Z.eqb_spec (Z.of_nat (length doc)) 0) as [E|E]; cbn [negb].
    - exists 100. split; [reflexivity|lia].
    - eexists. split; [reflexivity|lia]. }
  destruct Hm as (z & -> & Hz & Hz1).
  unfold min. rewrite Hmin. cbn [option_map].
  rewrite or_truthy by reflexivity.
  cbn [JS.isNaN JS.lt JS.gt orb].
  destruct (Z.ltb_spec z 1); [lia|].
  destruct (Z.ltb_spec z 1); [lia|].
  cbn [orb Z.ltb Z.compare fst PdfParse.take_pages].
  rewrite firstn_all2 by (rewrite pages_from_length; lia).
  now rewrite pagerender_default by (lia || assumption).
Qed.

(** C8: every request to [/api/health] is answered with HTTP 200 and the
    body [{status: "ok"}], whatever the request; the handler reads nothing
    of the world and performs no call. *)
Theorem health_ok req :
  health req
  = (Return {| status := 200; body := StatusJson (lit "ok") |}, []).
Proof. reflexivity. Qed.

(** C9, amended: on [/api/pdf-text], when [parseInt] can read both
    [max] and [min] (it returns a number or [NaN]: it does not throw), a
    parameter that is non-numeric ([NaN]) or parses to 0 is silently
    replaced by its default (1 for [min], 100 for [max]) and raises no
    validation error; the validation errors are triggered exactly by a
    [max] that parses to a negative value, by a [min] that parses to a
    negative value, and by an effective [min] greater than the effective
    [max]; otherwise the bytes are handed to the parser with the
    effective [max].  (The range is read once the document has been
    fetched.) *)
Theorem defaults_before_validation req data parsed_max parsed_min :
  let pdfUrl := query req !! lit "pdfUrl" in
  let effective_max := JS.or parsed_max (Fin 100) in
  let effective_min := JS.or parsed_min (Fin 1) in
  truthy_prop pdfUrl = true ->
  http_get env pdfUrl = inl data ->
  parseInt (query req !! lit "max") = Some parsed_max ->
  parseInt (query req !! lit "min") = Some parsed_min ->
  (truthy parsed_max = false -> max req = Some (Fin 100))
  /\ (truthy parsed_min = false -> min req = Some (Fin 1))
  /\ (negative parsed_max = true ->
      pdf_text env req
      = validation_failure pdfUrl (lit "Invalid max page value"))
  /\ (negative parsed_max = false ->
      negative parsed_min || JS.gt effective_min effective_max = true ->
      pdf_text env req
      = validation_failure pdfUrl (lit "Invalid min page value"))
  /\ (negative parsed_max = false ->
      negative parsed_min || JS.gt effective_min effective_max = false ->
      exists rest,
        snd (pdf_text env req)
        = HttpGet pdfUrl :: PdfParseCall data (Some effective_max) :: rest).
Proof.
  intros pdfUrl effective_max effective_min Hurl Hget Hpmax Hpmin.
  pose proof (pdf_text_fetched env req data Hurl Hget) as Hrun.
  subst pdfUrl effective_max effective_min. unfold max, min in *.
  rewrite Hpmax, Hpmin in *. cbn [option_map] in *.
  split; [intros H; now rewrite or_falsy|].
  split; [intros H; now rewrite or_falsy|].
  split; [|split].
  - intros Hneg. rewrite Hrun.
    now rewrite (max_check_negative _ Hneg).
  - intros Hmax Hmin. rewrite Hrun.
    pose proof (max_check_default _ Hmax) as Hok.
    now rewrite Hok, (min_check _ _ Hok), Hmin.
  - intros Hmax Hmin. rewrite Hrun.
    pose proof (max_check_default _ Hmax) as Hok.
    rewrite Hok, (min_check _ _ Hok), Hmin.
    destruct (getDocument env data); eexists; reflexivity.
Qed.

(** C10: on [/api/pdf-text] the remote fetch comes before the validation
    of the page range.  Whatever the [min] and [max] of a request that
    names a [pdfUrl] (an invalid range included), the first call of the
    handler is the fetch; and when the fetch fails the 500 response
    carries the message of that failure, the range is never checked and
    nothing is parsed. *)
Theorem fetch_precedes_validation req :
  let pdfUrl := query req !! lit "pdfUrl" in
  truthy_prop pdfUrl = true ->
  (exists rest, snd (pdf_text env req) = HttpGet pdfUrl :: rest)
  /\ (forall message,
       http_get env pdfUrl = inr message ->
       pdf_text env req
       = (Return {| status := 500;
                    body := FailureJson (lit "Failed to process PDF")
                              message |},
          [HttpGet pdfUrl; ConsoleError message])).
Proof.
  intros pdfUrl Hurl. split.
  - destruct (http_get env pdfUrl) as [data|message] eqn:Hget.
    + rewrite (pdf_text_fetched env req data Hurl Hget).
      destruct (max req) as [mx|]; [|eexists; reflexivity].
      destruct (min req) as [mn|]; [|eexists; reflexivity].
      destruct (JS.isNaN mx || JS.lt mx (Fin 1));
        [eexists; reflexivity|].
      destruct (JS.isNaN mn || JS.lt mn (Fin 1) || JS.gt mn mx);
        [eexists; reflexivity|].
      destruct (getDocument env data); eexists; reflexivity.
    + rewrite (pdf_text_fetch_failed env req message Hurl Hget).
      eexists; reflexivity.
  - intros message Hget.
    apply (pdf_text_fetch_failed env req message Hurl Hget).
Qed.

End Claims.

(** *** The claims at concrete requests *)

Import Samples.

Lemma ranged_extraction_witness :
  pdf_text (serving three_pages) (ranged "2" "3")
  = (Return (ok_text (lit "cd e")),
     [HttpGet fetched; PdfParseCall [] (Some (Fin 3))]).
Proof.
  apply (ranged_extraction (serving three_pages) (ranged "2" "3")
           [] three_pages 2 3); [reflexivity .. | lia].
Defined.

Lemma missing_pdfUrl_rejected_witness :
  pdf_text (serving three_pages) (anonymous "1" "5")
  = (Return {| status := 400;
               body := ErrorJson (lit "Missing pdfUrl parameter") |}, [])
  /\ pdf_text_all (serving three_pages) (anonymous "1" "5")
     = (Return {| status := 400;
                  body := ErrorJson (lit "Missing pdfUrl parameter") |}, []).
Proof.
  apply (missing_pdfUrl_rejected (serving three_pages) (anonymous "1" "5")).
  reflexivity.
Defined.

(** C3 as stated fails: a negative [max] is an invalid page value, and
    the answer is HTTP 500, not 400. *)
Lemma invalid_range_answers_500 :
  range_invalid (capped "-1") = true
  /\ pdf_text (serving three_pages) (capped "-1")
     = (Return {| status := 500;
                  body := FailureJson (lit "Failed to process PDF")
                            (lit "Invalid max page value") |},
        [HttpGet fetched; ConsoleError (lit "Invalid max page value")])
  /\ status_of (pdf_text (serving three_pages) (capped "-1")) <> Some 400.
Proof.
  split; [reflexivity|]. split; [reflexivity|]. discriminate.
Qed.

Lemma client_error_statuses_witness :
  pdf_text (serving three_pages) (anonymous "1" "5")
  = (Return {| status := 400;
               body := ErrorJson (lit "Missing pdfUrl parameter") |}, [])
  /\ exists message,
       (message = lit "Invalid max page value"
        \/ message = lit "Invalid min page value"
        \/ message = lit "Cannot convert object to primitive value")
       /\ fst (pdf_text (serving three_pages) (ranged "5" "2"))
          = Return {| status := 500;
                      body := FailureJson (lit "Failed to process PDF")
                                message |}.
Proof.
  split.
  - apply (proj1 (client_error_statuses (serving three_pages)
                    (anonymous "1" "5"))).
    reflexivity.
  - apply (proj2 (client_error_statuses (serving three_pages)
                    (ranged "5" "2")) []); reflexivity.
Defined.

(** C4 as stated fails: with [min=5] and [max=-1] the parsed [min]
    exceeds the parsed [max], and the message is the one of the check on
    [max], which comes first. *)
Lemma min_above_negative_max :
  parseInt (query (ranged "5" "-1") !! lit "min") = Some (Fin 5)
  /\ parseInt (query (ranged "5" "-1") !! lit "max") = Some (Fin (-1))
  /\ pdf_text (serving three_pages) (ranged "5" "-1")
     = (Return {| status := 500;
                  body := FailureJson (lit "Failed to process PDF")
                            (lit "Invalid max page value") |},
        [HttpGet fetched; ConsoleError (lit "Invalid max page value")])
  /\ lit "Invalid max page value" <> lit "Invalid min page value".
Proof.
  split; [reflexivity|]. split; [reflexivity|]. split; [reflexivity|].
  discriminate.
Qed.

Lemma min_above_max_witness :
  pdf_text (serving three_pages) (ranged "5" "2")
  = (Return {| status := 500;
               body := FailureJson (lit "Failed to process PDF")
                         (lit "Invalid min page value") |},
     [HttpGet fetched; ConsoleError (lit "Invalid min page value")]).
Proof.
  apply (min_above_max (serving three_pages) (ranged "5" "2") [] 5 2);
    [reflexivity .. | lia | lia].
Defined.

(** C5 as stated fails: with [max=-1] and a URL that cannot be fetched
    the 500 response carries the message of the fetch. *)
Lemma negative_max_unfetched :
  parseInt (query (capped "-1") !! lit "max") = Some (Fin (-1))
  /\ pdf_text (unreachable "getaddrinfo ENOTFOUND x") (capped "-1")
     = (Return {| status := 500;
                  body := FailureJson (lit "Failed to process PDF")
                            (lit "getaddrinfo ENOTFOUND x") |},
        [HttpGet fetched; ConsoleError (lit "getaddrinfo ENOTFOUND x")])
  /\ lit "getaddrinfo ENOTFOUND x" <> lit "Invalid max page value".
Proof.
  split; [reflexivity|]. split; [reflexivity|]. discriminate.
Qed.

Lemma negative_max_witness :
  pdf_text (serving three_pages) (capped "-3")
  = (Return {| status := 500;
               body := FailureJson (lit "Failed to process PDF")
                         (lit "Invalid max page value") |},
     [HttpGet fetched; ConsoleError (lit "Invalid max page value")]).
Proof.
  apply (negative_max (serving three_pages) (capped "-3") []
           (Fin (-3)) NaN); reflexivity.
Defined.

(** C6 as stated fails: on a one-page document whose page has the
    fragments "a" and "b", the ranged route with [min=1], [max=1] joins
    them with a space and the whole-document route does not. *)
Lemma ranged_differs_from_whole :
  length two_fragments = 1%nat
  /\ fst (pdf_text (serving two_fragments) (ranged "1" "1"))
     = Return (ok_text (lit "a b"))
  /\ fst (pdf_text_all (serving two_fragments) plain)
     = Return (ok_text (lit "ab"))
  /\ fst (pdf_text (serving two_fragments) (ranged "1" "1"))
     <> fst (pdf_text_all (serving two_fragments) plain).
Proof.
  split; [reflexivity|]. split; [reflexivity|]. split; [reflexivity|].
  discriminate.
Qed.

Lemma ranged_covers_whole_witness :
  fst (pdf_text (serving sparse_pages) (ranged "1" "3"))
  = fst (pdf_text_all (serving sparse_pages) plain).
Proof.
  apply (ranged_covers_whole (serving sparse_pages) (ranged "1" "3") plain
           [] sparse_pages); try reflexivity.
  unfold single_fragment_pages, sparse_pages. repeat constructor.
Defined.

Lemma single_page_extraction_witness :
  fst (pdf_text (serving three_pages) (ranged "2" "2"))
  = Return (ok_text (lit "c"))
  /\ fst (pdf_text (serving three_pages) (ranged " 2" "2.5"))
     = fst (pdf_text (serving three_pages) (ranged "2" "2")).
Proof.
  destruct (single_page_extraction (serving three_pages) (ranged "2" "2")
              [] three_pages 2) as [Hone Hsame];
    [reflexivity .. | lia |].
  split; [exact Hone|].
  apply (Hsame (serving three_pages) (ranged " 2" "2.5") []); reflexivity.
Defined.

(** C9 as stated fails: [max[toString]=x] is a non-numeric [max], yet it
    is not replaced by 100 and nothing is extracted: [parseInt] throws on
    it and the answer is HTTP 500 with the message of that [TypeError]. *)
Lemma unreadable_max_is_not_defaulted :
  query object_max !! lit "max"
  = Some (QObj [(lit "toString", QStr (lit "x"))])
  /\ parseInt (query object_max !! lit "max") = None
  /\ max object_max = None
  /\ pdf_text (serving three_pages) object_max
     = (Return {| status := 500;
                  body := FailureJson (lit "Failed to process PDF")
                            (lit "Cannot convert object to primitive value") |},
        [HttpGet fetched;
         ConsoleError (lit "Cannot convert object to primitive value")]).
Proof. repeat split; reflexivity. Qed.

Lemma defaults_before_validation_witness :
  max (ranged "abc" "0") = Some (Fin 100)
  /\ min (ranged "abc" "0") = Some (Fin 1)
  /\ exists rest,
       snd (pdf_text (serving three_pages) (ranged "abc" "0"))
       = HttpGet fetched :: PdfParseCall [] (Some (Fin 100)) :: rest.
Proof.
  destruct (defaults_before_validation (serving three_pages)
              (ranged "abc" "0") [] (Fin 0) NaN eq_refl eq_refl
              eq_refl eq_refl)
    as (Hmax & Hmin & _ & _ & Hrun).
  split; [exact (Hmax eq_refl)|]. split; [exact (Hmin eq_refl)|].
  exact (Hrun eq_refl eq_refl).
Defined.

Lemma fetch_precedes_validation_witness :
  range_invalid (ranged "5" "2") = true
  /\ (exists rest,
        snd (pdf_text (unreachable "getaddrinfo ENOTFOUND x") (ranged "5" "2"))
        = HttpGet fetched :: rest)
  /\ pdf_text (unreachable "getaddrinfo ENOTFOUND x") (ranged "5" "2")
     = (Return {| status := 500;
                  body := FailureJson (lit "Failed to process PDF")
                            (lit "getaddrinfo ENOTFOUND x") |},
        [HttpGet fetched; ConsoleError (lit "getaddrinfo ENOTFOUND x")]).
Proof.
  destruct (fetch_precedes_validation
              (unreachable "getaddrinfo ENOTFOUND x") (ranged "5" "2")
              eq_refl) as [Hfirst Hfail].
  split; [reflexivity|]. split; [exact Hfirst|].
  exact (Hfail _ eq_refl).
Defined.

(** *** Evaluations *)

Example parseInt_decimal_prefix :
  parseInt (Some (QStr (lit "  12px"))) = Some (Fin 12).
Proof. reflexivity. Qed.

Example parseInt_hexadecimal :
  parseInt (Some (QStr (lit "-0x1F"))) = Some (Fin (-31)).
Proof. reflexivity. Qed.

Example parseInt_undefined : parseInt None = Some NaN.
Proof. reflexivity. Qed.

Example parseInt_empty : parseInt (Some (QStr [])) = Some NaN.
Proof. reflexivity. Qed.

Example parseInt_repeated_parameter :
  parseInt (Some (QArr [QStr (lit "3"); QStr (lit "4")])) = Some (Fin 3).
Proof. reflexivity. Qed.

Example parseInt_plain_object :
  parseInt (Some (QObj [(lit "a", QStr (lit "1"))])) = Some NaN.
Proof. reflexivity. Qed.

Example parseInt_object_with_toString :
  parseInt (Some (QObj [(lit "toString", QStr (lit "x"))])) = None.
Proof. reflexivity. Qed.

Example parseInt_array_with_such_object :
  parseInt (Some (QArr [QStr (lit "3");
                        QObj [(lit "toString", QStr (lit "x"))]])) = None.
Proof. reflexivity. Qed.

(** [min] is read before [max] is checked: an unreadable [min] hides a
    negative [max]. *)
Example unreadable_min_precedes_max_check :
  pdf_text (serving three_pages) negative_max_object_min
  = (Return (failed (lit "Cannot convert object to primitive value")),
     [HttpGet fetched;
      ConsoleError (lit "Cannot convert object to primitive value")]).
Proof. reflexivity. Qed.

Example parseInt_rounds_to_double :
  parseInt (Some (QStr (lit "9007199254740993"))) = Some (Fin 9007199254740992).
Proof. reflexivity. Qed.

Example trim_both_ends :
  trim (9 :: lit " a  b " ++ [10; 160])%N = lit "a  b".
Proof. reflexivity. Qed.

(** A [max] that is not a number, and a [max] of 0, are replaced by 100
    before the checks on [max] run. *)
Example non_numeric_max_is_defaulted :
  pdf_text (serving three_pages) (capped "abc")
  = (Return (ok_text (lit "a bcd e")),
     [HttpGet fetched; PdfParseCall [] (Some (Fin 100))]).
Proof. reflexivity. Qed.

Example zero_max_is_defaulted :
  pdf_text (serving three_pages) (capped "0")
  = (Return (ok_text (lit "a bcd e")),
     [HttpGet fetched; PdfParseCall [] (Some (Fin 100))]).
Proof. reflexivity. Qed.

(** A document that does not parse: the parser's message is passed on. *)
Example unparsable_document :
  pdf_text {| http_get := fun _ => inl [];
              getDocument := fun _ => inr (lit "Invalid PDF structure") |}
    (ranged "1" "2")
  = (Return (failed (lit "Invalid PDF structure")),
     [HttpGet fetched; PdfParseCall [] (Some (Fin 2));
      ConsoleError (lit "Invalid PDF structure")]).
Proof. reflexivity. Qed.

(** A page range beyond the last page extracts nothing. *)
Example range_past_the_end :
  fst (pdf_text (serving three_pages) (ranged "7" "9"))
  = Return (ok_text []).
Proof. reflexivity. Qed.

(* ===================================================================== *)
(** ** Further properties of the handlers *)
(* ===================================================================== *)

Import Obs.

(** Case analysis on the stages of a run of the ranged route. *)
Ltac ranged_cases env req :=
  let Hurl := fresh "Hurl" in
  let Hget := fresh "Hget" in
  destruct (truthy_prop (query req !! lit "pdfUrl")) eqn:Hurl;
  [ destruct (http_get env (query req !! lit "pdfUrl"))
      as [?data|?message] eqn:Hget;
    [ rewrite (pdf_text_fetched env req _ Hurl Hget);
      destruct (max req) as [?mx|] eqn:?Hmx;
      [ destruct (min req) as [?mn|] eqn:?Hmn;
        [ match goal with
          | |- context [JS.isNaN ?x || JS.lt ?x (Fin 1)] =>
              destruct (JS.isNaN x || JS.lt x (Fin 1)) eqn:?Hmax
          end;
          [ | match goal with
              | |- context [JS.isNaN ?y || JS.lt ?y (Fin 1) || JS.gt ?y ?x] =>
                  destruct (JS.isNaN y || JS.lt y (Fin 1) || JS.gt y x)
                    eqn:?Hmin
              end;
              [ | destruct (getDocument env _) as [?doc|?message] eqn:?Hdoc ] ]
        | ]
      | ]
    | rewrite (pdf_text_fetch_failed env req _ Hurl Hget) ]
  | rewrite (pdf_text_no_url env req Hurl) ].

(** Case analysis on the stages of a run of the whole-document route. *)
Ltac whole_cases env req :=
  let Hurl := fresh "Hurl" in
  let Hget := fresh "Hget" in
  destruct (truthy_prop (query req !! lit "pdfUrl")) eqn:Hurl;
  [ destruct (http_get env (query req !! lit "pdfUrl"))
      as [?data|?message] eqn:Hget;
    [ rewrite (pdf_text_all_fetched env req _ Hurl Hget);
      destruct (getDocument env _) as [?doc|?message] eqn:?Hdoc
    | rewrite (pdf_text_all_fetch_failed env req _ Hurl Hget) ]
  | rewrite (pdf_text_all_no_url env req Hurl) ].

(** Membership in an explicit trace, case by case; the cases that name a
    different event are closed. *)
Ltac in_trace H :=
  cbn in H;
  repeat match type of H with
         | _ \/ _ => destruct H as [H|H]; [try discriminate H|]
         | False => destruct H
         end.

(** *** White space *)

Lemma trimStart_clean s : starts_clean (trimStart s).
Proof.
  induction s as [|c s IH]; cbn; [exact I|].
  destruct (isWhiteSpace c) eqn:E; [exact IH|exact E].
Qed.

(** [trimStart] removes a prefix. *)
Lemma trimStart_suffix s : exists ws, s = ws ++ trimStart s.
Proof.
  induction s as [|c s [ws IH]]; [now exists []|].
  cbn. destruct (isWhiteSpace c).
  - exists (c :: ws). cbn. now f_equal.
  - now exists [].
Qed.

(** [trimEnd] removes a suffix. *)
Lemma trimEnd_prefix s : exists ws, s = trimEnd s ++ ws.
Proof.
  destruct (trimStart_suffix (rev s)) as [ws H].
  exists (rev ws). unfold trimEnd.
  rewrite <- rev_app_distr, <- H. now rewrite rev_involutive.
Qed.

Lemma trim_trimmed s : trimmed (trim s).
Proof.
  unfold trim, trimmed. split.
  - pose proof (trimStart_clean s) as Hc.
    destruct (trimEnd_prefix (trimStart s)) as [ws H].
    destruct (trimEnd (trimStart s)) as [|c t]; [exact I|].
    rewrite H in Hc. exact Hc.
  - unfold trimEnd. rewrite rev_involutive. apply trimStart_clean.
Qed.

Section Runs.
Variable env : World.
Variable req : Request.

(** X1: both extraction routes answer every request: no error escapes
    the handler, and the answer is 200 with a text, 400 with "Missing
    pdfUrl parameter", or 500 with the label "Failed to process PDF" and
    a message. *)
Theorem extraction_always_answers :
  (exists r, fst (pdf_text env req) = Return r /\ answer r)
  /\ (exists r, fst (pdf_text_all env req) = Return r /\ answer r).
Proof.
  split.
  - ranged_cases env req; eexists; (split; [reflexivity|constructor]).
  - whole_cases env req; eexists; (split; [reflexivity|constructor]).
Qed.

(** X2: a failure is logged exactly once, with the message that is sent
    to the client; a 200 or 400 answer logs nothing. *)
Theorem failures_logged_once :
  (exists r, fst (pdf_text env req) = Return r
             /\ console_errors (snd (pdf_text env req)) = failure_message r)
  /\ (exists r, fst (pdf_text_all env req) = Return r
                /\ console_errors (snd (pdf_text_all env req))
                   = failure_message r).
Proof.
  split.
  - ranged_cases env req; eexists; (split; reflexivity).
  - whole_cases env req; eexists; (split; reflexivity).
Qed.

(** X3: a request with a usable [pdfUrl] causes exactly one fetch, of
    that very value; a request without one causes none.  This holds on
    both routes, whatever happens afterwards. *)
Theorem fetches_pdfUrl_once :
  let pdfUrl := query req !! lit "pdfUrl" in
  fetches (snd (pdf_text env req))
  = (if truthy_prop pdfUrl then [pdfUrl] else [])
  /\ fetches (snd (pdf_text_all env req))
     = (if truthy_prop pdfUrl then [pdfUrl] else []).
Proof.
  split.
  - ranged_cases env req; reflexivity.
  - whole_cases env req; reflexivity.
Qed.

(** X4: whatever is handed to the parser is what the fetch of [pdfUrl]
    returned: neither route parses anything else, and neither parses
    after a failed fetch. *)
Theorem parses_what_it_fetched data limit :
  In (PdfParseCall data limit) (snd (pdf_text env req))
  \/ In (PdfParseCall data limit) (snd (pdf_text_all env req)) ->
  truthy_prop (query req !! lit "pdfUrl") = true
  /\ http_get env (query req !! lit "pdfUrl") = inl data.
Proof.
  intros [H|H]; revert H.
  - ranged_cases env req; intros H; in_trace H.
    all: injection H as <- _; now split.
  - whole_cases env req; intros H; in_trace H.
    all: injection H as <- _; now split.
Qed.

(** X5: when the ranged route reaches the parser, both [max] and [min]
    were read, the limit it passes is the effective [max], and the
    effective range is in order: [max] and [min] are numbers (not [NaN])
    that are at least 1, and [min] is not above [max]. *)
Theorem parser_sees_valid_range data limit :
  In (PdfParseCall data limit) (snd (pdf_text env req)) ->
  exists effective_max effective_min,
    max req = Some effective_max
    /\ min req = Some effective_min
    /\ limit = Some effective_max
    /\ at_least_one effective_max
    /\ at_least_one effective_min
    /\ JS.gt effective_min effective_max = false.
Proof.
  assert (Hone : forall x,
    JS.isNaN x || JS.lt x (Fin 1) = false -> at_least_one x).
  { intros [|z| |]; cbn; intros H; try discriminate H; try exact I.
    now apply Z.ltb_ge in H. }
  ranged_cases env req; intros H; in_trace H.
  all: injection H as _ <-.
  all: apply orb_false_iff in Hmin as [Hmin Hgt].
  all: exists mx, mn; repeat split; auto.
Qed.

(** X6: the text of a 200 answer, on either route, has no white space at
    its start or at its end. *)
Theorem text_is_trimmed r text :
  fst (pdf_text env req) = Return r \/ fst (pdf_text_all env req) = Return r ->
  body r = TextJson text ->
  trimmed text.
Proof.
  intros [H|H]; revert H.
  - ranged_cases env req; cbn; intros H; injection H as <-; cbn;
      intros E; try discriminate E.
    injection E as <-. apply trim_trimmed.
  - whole_cases env req; cbn; intros H; injection H as <-; cbn;
      intros E; try discriminate E.
    injection E as <-. apply trim_trimmed.
Qed.

(** X7: the answer is 400 exactly when [pdfUrl] is absent or the empty
    string, on both routes. *)
Theorem status_400_iff_no_pdfUrl :
  let pdfUrl := query req !! lit "pdfUrl" in
  (status_of (pdf_text env req) = Some 400
   <-> pdfUrl = None \/ pdfUrl = Some (QStr []))
  /\ (status_of (pdf_text_all env req) = Some 400
      <-> pdfUrl = None \/ pdfUrl = Some (QStr [])).
Proof.
  assert (Hguard : forall v : option qvalue,
    truthy_prop v = false <-> v = None \/ v = Some (QStr [])).
  { intros [[[|c s]|l|f]|]; cbn; split; intros H; try discriminate H;
      try reflexivity; auto; destruct H as [H|H]; discriminate H. }
  cbn zeta. rewrite <- Hguard. split.
  - ranged_cases env req; cbn; split; intros H; congruence.
  - whole_cases env req; cbn; split; intros H; congruence.
Qed.

End Runs.

(** *** Pages in and out of the range *)

Lemma contributions_skip minPage maxPage doc : forall n,
  n <= minPage ->
  contributions minPage maxPage n doc
  = contributions minPage maxPage minPage
      (skipn (Z.to_nat (minPage - n)) doc).
Proof.
  induction doc as [|tc rest IH]; intros n H.
  - now rewrite skipn_nil.
  - destruct (Z.ltb_spec n minPage) as [Hlt|Hge].
    + cbn [contributions]. unfold page_contribution.
      destruct (Z.ltb_spec n minPage); [|lia].
      rewrite IH by lia.
      replace (Z.to_nat (minPage - n))
        with (S (Z.to_nat (minPage - (n + 1)))) by lia.
      reflexivity.
    + assert (n = minPage) as -> by lia.
      now rewrite Z.sub_diag.
Qed.

Lemma contributions_take minPage maxPage doc : forall n,
  minPage <= n ->
  contributions minPage maxPage n doc
  = List.concat (List.map (fun tc => join (lit " ") (fragments tc))
                   (firstn (Z.to_nat (maxPage - n + 1)) doc)).
Proof.
  induction doc as [|tc rest IH]; intros n H.
  - now rewrite firstn_nil.
  - cbn [contributions]. unfold page_contribution.
    destruct (Z.ltb_spec n minPage); [lia|].
    destruct (Z.leb_spec n maxPage).
    + rewrite IH by lia.
      replace (Z.to_nat (maxPage - n + 1))
        with (S (Z.to_nat (maxPage - (n + 1) + 1))) by lia.
      reflexivity.
    + rewrite contributions_past by lia.
      replace (Z.to_nat (maxPage - n + 1)) with 0%nat by lia.
      reflexivity.
Qed.

(** The ranged text, as a slice of the document. *)
Lemma ranged_text_slice minPage maxPage doc :
  1 <= minPage ->
  ranged_text minPage maxPage doc
  = trim (List.concat (List.map (fun tc => join (lit " ") (fragments tc))
                         (pages_in_range minPage maxPage doc))).
Proof.
  intros H. unfold ranged_text, pages_in_range.
  rewrite contributions_skip by lia.
  now rewrite contributions_take by lia.
Qed.

(** A ranged run whose parameters parse to a valid range, in closed
    form. *)
Lemma pdf_text_slice env req data doc minPage maxPage :
  truthy_prop (query req !! lit "pdfUrl") = true ->
  http_get env (query req !! lit "pdfUrl") = inl data ->
  getDocument env data = inl doc ->
  min req = Some (Fin minPage) ->
  max req = Some (Fin maxPage) ->
  1 <= minPage <= maxPage ->
  pdf_text env req
  = (Return (ok_text
       (trim (List.concat (List.map (fun tc => join (lit " ") (fragments tc))
                             (pages_in_range minPage maxPage doc))))),
     [HttpGet (query req !! lit "pdfUrl");
      PdfParseCall data (Some (Fin maxPage))]).
Proof.
  intros Hurl Hget Hdoc Hmin Hmax Hrange.
  rewrite (pdf_text_fetched env req data Hurl Hget), Hmin, Hmax.
  cbn [JS.isNaN JS.lt JS.gt orb].
  destruct (Z.ltb_spec maxPage 1); [lia|].
  destruct (Z.ltb_spec minPage 1); [lia|].
  destruct (Z.ltb_spec maxPage minPage); [lia|].
  cbn [orb]. rewrite Hdoc. cbn [PdfParse.take_pages].
  rewrite pagerender_prefix.
  replace (1 + Z.of_nat (Z.to_nat maxPage) - 1) with maxPage by lia.
  fold (ranged_text minPage maxPage doc).
  now rewrite ranged_text_slice by lia.
Qed.

Lemma legacy_is_whole env req :
  Legacy.pdf_text env req = pdf_text_all env req.
Proof. reflexivity. Qed.

Section Ranges.
Variable env : World.
Variable req : Request.

(** X8: when the fetched bytes do not parse, the message of the parser
    is what the client receives in the 500 answer and what is logged: on
    the whole-document route always, on the ranged route when the range
    passes its checks. *)
Theorem parser_message_passes_through data message :
  truthy_prop (query req !! lit "pdfUrl") = true ->
  http_get env (query req !! lit "pdfUrl") = inl data ->
  getDocument env data = inr message ->
  pdf_text_all env req
  = (Return {| status := 500;
               body := FailureJson (lit "Failed to process PDF") message |},
     [HttpGet (query req !! lit "pdfUrl"); PdfParseCall data None;
      ConsoleError message])
  /\ (range_invalid req = false ->
      pdf_text env req
      = (Return {| status := 500;
                   body := FailureJson (lit "Failed to process PDF")
                             message |},
         [HttpGet (query req !! lit "pdfUrl");
          PdfParseCall data (max req); ConsoleError message])).
Proof.
  intros Hurl Hget Hdoc. split.
  - now rewrite (pdf_text_all_fetched env req data Hurl Hget), Hdoc.
  - intros Hok. unfold range_invalid in Hok.
    rewrite (pdf_text_fetched env req data Hurl Hget), Hdoc.
    destruct (max req) as [mx|]; [|discriminate Hok].
    destruct (min req) as [mn|]; [|discriminate Hok].
    rewrite <- !orb_assoc in Hok.
    apply orb_false_iff in Hok as [Hnan Hok].
    apply orb_false_iff in Hok as [Hlt Hok].
    rewrite Hnan, Hlt. cbn [orb]. rewrite <- !orb_assoc. now rewrite Hok.
Qed.

(** X9: a request to [/api/pdf-text] that carries neither [min] nor
    [max] is never rejected for its range and extracts the first 100
    pages: the text is the fragments of each of these pages joined by a
    space, concatenated and trimmed; pages after the 100th are not
    parsed. *)
Theorem default_range_is_first_100_pages data doc :
  truthy_prop (query req !! lit "pdfUrl") = true ->
  http_get env (query req !! lit "pdfUrl") = inl data ->
  getDocument env data = inl doc ->
  query req !! lit "min" = None ->
  query req !! lit "max" = None ->
  pdf_text env req
  = (Return {| status := 200;
               body := TextJson
                 (trim (List.concat
                    (List.map (fun tc => join (lit " ") (fragments tc))
                       (firstn 100 doc)))) |},
     [HttpGet (query req !! lit "pdfUrl");
      PdfParseCall data (Some (Fin 100))]).
Proof.
  intros Hurl Hget Hdoc Hmin Hmax.
  rewrite (pdf_text_slice env req data doc 1 100 Hurl Hget Hdoc);
    [reflexivity | | | lia].
  - unfold min. now rewrite Hmin.
  - unfold max. now rewrite Hmax.
Qed.

(** X10: only the pages numbered [min] to [max] matter to the ranged
    route: two documents with the same pages in that range get the same
    answer, whatever their other pages hold and however many there
    are. *)
Theorem only_pages_in_range_matter env' req' data data' doc doc'
    minPage maxPage :
  truthy_prop (query req !! lit "pdfUrl") = true ->
  http_get env (query req !! lit "pdfUrl") = inl data ->
  getDocument env data = inl doc ->
  truthy_prop (query req' !! lit "pdfUrl") = true ->
  http_get env' (query req' !! lit "pdfUrl") = inl data' ->
  getDocument env' data' = inl doc' ->
  min req = Some (Fin minPage) -> min req' = Some (Fin minPage) ->
  max req = Some (Fin maxPage) -> max req' = Some (Fin maxPage) ->
  1 <= minPage <= maxPage ->
  pages_in_range minPage maxPage doc = pages_in_range minPage maxPage doc' ->
  fst (pdf_text env req) = fst (pdf_text env' req').
Proof.
  intros Hurl Hget Hdoc Hurl' Hget' Hdoc' Hmin Hmin' Hmax Hmax' Hrange Hsame.
  rewrite (pdf_text_slice env req data doc minPage maxPage) by assumption.
  rewrite (pdf_text_slice env' req' data' doc' minPage maxPage) by assumption.
  cbn [fst]. now rewrite Hsame.
Qed.

(** X11: a caller of the earlier [/api/pdf-text], who sends neither
    [min] nor [max], gets the same answer from today's [/api/pdf-text]
    whenever the document has at most 100 pages and no page has more
    than one text fragment. *)
Theorem upgrade_preserves_plain_requests data doc :
  truthy_prop (query req !! lit "pdfUrl") = true ->
  http_get env (query req !! lit "pdfUrl") = inl data ->
  getDocument env data = inl doc ->
  query req !! lit "min" = None ->
  query req !! lit "max" = None ->
  (length doc <= 100)%nat ->
  single_fragment_pages doc ->
  fst (pdf_text env req) = fst (Legacy.pdf_text env req).
Proof.
  intros Hurl Hget Hdoc Hmin Hmax Hlen Hsingle.
  rewrite legacy_is_whole.
  rewrite (pdf_text_all_fetched env req data Hurl Hget), Hdoc.
  rewrite (pdf_text_fetched env req data Hurl Hget).
  unfold max, min. rewrite Hmin, Hmax, Hdoc.
  change (parseInt None) with (Some NaN). cbn [option_map].
  cbn [JS.or truthy JS.isNaN JS.lt JS.gt orb Z.ltb Z.compare Pos.compare
       Pos.compare_cont fst PdfParse.take_pages].
  rewrite firstn_all2 by (rewrite pages_from_length; lia).
  now rewrite pagerender_default by (lia || assumption).
Qed.

End Ranges.

(* ===================================================================== *)
(** ** Properties of the test page *)
(* ===================================================================== *)

Section Submission.
Import Client.
Variable browser : Browser.
Variable pdfUrl : jsstring.

(** An input that cannot be encoded never reaches the network. *)
Lemma submit_unencodable :
  encodeURIComponent pdfUrl = None ->
  submit browser pdfUrl = caught [] (URIError_message browser).
Proof.
  intros H. unfold submit. rewrite H. reflexivity.
Qed.

(** The course of a submission whose input can be encoded. *)
Lemma submit_encoded encoded :
  encodeURIComponent pdfUrl = Some encoded ->
  submit browser pdfUrl
  = let apiUrl := api ++ encoded in
    match fetch browser apiUrl with
    | inr message => caught [Fetch apiUrl] message
    | inl response =>
        if ok response then
          match json response with
          | inr message => caught [Fetch apiUrl; ResponseJson] message
          | inl JNull =>
              caught [Fetch apiUrl; ResponseJson] (TypeError_message browser)
          | inl (JObj props) =>
              (Eff.Return tt,
               [PreventDefault; SetTextContent loading; Fetch apiUrl;
                ResponseJson;
                SetTextContent (display (own_property (lit "text") props))])
          | inl _ =>
              (Eff.Return tt,
               [PreventDefault; SetTextContent loading; Fetch apiUrl;
                ResponseJson; SetTextContent fallback])
          end
        else
          caught [Fetch apiUrl]
            (lit "HTTP error! Status: " ++ decimal (status response))
    end.
Proof.
  intros H. unfold submit. rewrite H. cbn zeta.
  cbn [Client.bind Client.emit Client.ret Client.await app].
  destruct (fetch browser (api ++ encoded)) as [response|message];
    [|reflexivity].
  cbn [Client.bind Client.emit Client.ret Client.await app].
  destruct (ok response); [|reflexivity].
  cbn [negb Client.bind Client.emit Client.ret Client.await app].
  destruct (json response) as [data|message]; [|reflexivity].
  destruct data as [|b|m e|t|l|props]; try reflexivity.
  cbn [Client.bind Client.emit Client.ret Client.await app data_text].
  unfold display.
  destruct (own_property (lit "text") props) as [value|]; [|reflexivity].
  destruct (truthy_value (Some value)); reflexivity.
Qed.

End Submission.

(** *** Percent-encoding *)

Section Encoding.
Import Client.
Local Open Scope N_scope.

Lemma hexDigit_unreserved n : n < 16 -> uriUnreserved (hexDigit n) = true.
Proof.
  intros H.
  assert (Hall : forallb (fun k => uriUnreserved (hexDigit (N.of_nat k)))
                   (seq 0 16) = true) by reflexivity.
  rewrite forallb_forall in Hall.
  rewrite <- (N2Nat.id n). apply Hall, in_seq. lia.
Qed.

Lemma percent_safe octet : octet < 256 -> Forall uri_safe (percent octet).
Proof.
  intros H. unfold percent.
  constructor; [now right|].
  constructor.
  { left. apply hexDigit_unreserved. apply N.Div0.div_lt_upper_bound. lia. }
  constructor; [|constructor].
  left. apply hexDigit_unreserved. apply N.mod_lt. lia.
Qed.

Lemma utf8_octets cp : cp < 1114112 -> Forall (fun o => o < 256) (utf8 cp).
Proof.
  intros H. unfold utf8.
  assert (M64 : forall x, 128 + x mod 64 < 256).
  { intros x. pose proof (N.mod_lt x 64). lia. }
  destruct (N.ltb_spec cp 128); [repeat constructor; lia|].
  destruct (N.ltb_spec cp 2048).
  { repeat constructor; [|apply M64].
    assert (cp / 64 < 32) by (apply N.Div0.div_lt_upper_bound; lia). lia. }
  destruct (N.ltb_spec cp 65536).
  { repeat constructor; try apply M64.
    assert (cp / 4096 < 16) by (apply N.Div0.div_lt_upper_bound; lia). lia. }
  repeat constructor; try apply M64.
  assert (cp / 262144 < 5) by (apply N.Div0.div_lt_upper_bound; lia). lia.
Qed.

Lemma escape_safe cp : cp < 1114112 -> Forall uri_safe (escape cp).
Proof.
  intros H. unfold escape.
  pose proof (utf8_octets cp H) as Ho.
  induction Ho as [|o os Ho _ IH]; [constructor|].
  cbn [flat_map]. apply Forall_app. split; [now apply percent_safe|exact IH].
Qed.

(** The encoded string is made of unreserved characters and escapes. *)
Lemma encodeURIComponent_safe : forall n s encoded,
  (length s <= n)%nat ->
  code_units s ->
  encodeURIComponent s = Some encoded ->
  Forall uri_safe encoded.
Proof.
  induction n as [|n IH]; intros s encoded Hlen Hs Henc.
  - destruct s; [|cbn in Hlen; lia].
    injection Henc as <-. constructor.
  - destruct s as [|c rest]; [injection Henc as <-; constructor|].
    cbn [length] in Hlen. apply Forall_cons in Hs as [Hc Hrest].
    cbn [encodeURIComponent] in Henc.
    destruct (uriUnreserved c) eqn:Hu.
    { destruct (encodeURIComponent rest) as [e|] eqn:He; [|discriminate].
      injection Henc as <-. constructor; [now left|].
      apply (IH rest e); [lia|assumption|assumption]. }
    destruct (isTrailingSurrogate c); [discriminate|].
    destruct (isLeadingSurrogate c) eqn:Hl.
    { destruct rest as [|d rest']; [discriminate|].
      destruct (isTrailingSurrogate d) eqn:Ht; [|discriminate].
      destruct (encodeURIComponent rest') as [e|] eqn:He; [|discriminate].
      injection Henc as <-.
      apply Forall_cons in Hrest as [Hd Hrest'].
      cbn [length] in Hlen.
      apply Forall_app. split.
      - apply escape_safe.
        unfold isLeadingSurrogate in Hl. unfold isTrailingSurrogate in Ht.
        apply andb_true_iff in Hl as [Hl1 Hl2].
        apply andb_true_iff in Ht as [Ht1 Ht2].
        apply N.leb_le in Hl1, Hl2, Ht1, Ht2. lia.
      - apply (IH rest' e); [lia|assumption|assumption]. }
    destruct (encodeURIComponent rest) as [e|] eqn:He; [|discriminate].
    injection Henc as <-.
    apply Forall_app. split.
    + apply escape_safe. lia.
    + apply (IH rest e); [lia|assumption|assumption].
Qed.

(** A string without surrogates can always be encoded. *)
Lemma encodeURIComponent_total s :
  Forall (fun c => isSurrogate c = false) s ->
  exists encoded, encodeURIComponent s = Some encoded.
Proof.
  induction 1 as [|c rest Hc _ [e IH]]; [now exists []|].
  cbn [encodeURIComponent]. rewrite IH.
  apply orb_false_iff in Hc as [-> ->].
  destruct (uriUnreserved c); eexists; reflexivity.
Qed.

End Encoding.

(** *** The submit handler *)

Section Page.
Import Client.
Variable browser : Browser.
Variable pdfUrl : jsstring.

(** X12: a submission always runs to its end: no error escapes the
    handler, it writes "Loading..." and then exactly one final value to
    the output element, and it makes at most one request. *)
Theorem submit_always_concludes :
  fst (submit browser pdfUrl) = Eff.Return tt
  /\ (exists final,
        text_writes (snd (submit browser pdfUrl)) = [loading; final])
  /\ (length (fetched_urls (snd (submit browser pdfUrl))) <= 1)%nat.
Proof.
  destruct (encodeURIComponent pdfUrl) as [encoded|] eqn:Henc.
  - rewrite (submit_encoded browser pdfUrl encoded Henc). cbn zeta.
    destruct (fetch browser (api ++ encoded)) as [response|message].
    + destruct (ok response).
      * destruct (json response) as [[|b|m e|t|l|props]|message];
          (split; [reflexivity|]); (split; [eexists; reflexivity|]);
          cbn; lia.
      * split; [reflexivity|]. split; [eexists; reflexivity|]. cbn; lia.
    + split; [reflexivity|]. split; [eexists; reflexivity|]. cbn; lia.
  - rewrite (submit_unencodable browser pdfUrl Henc).
    split; [reflexivity|]. split; [eexists; reflexivity|]. cbn; lia.
Qed.

(** X13: when the server answers with a status outside 200-299, the
    page shows "Error: HTTP error! Status: " followed by the status and
    logs the same message; the body of the answer is never read. *)
Theorem http_error_is_reported encoded response :
  encodeURIComponent pdfUrl = Some encoded ->
  fetch browser (api ++ encoded) = inl response ->
  ok response = false ->
  submit browser pdfUrl
  = (Eff.Return tt,
     [PreventDefault;
      SetTextContent (JStr (lit "Loading..."));
      Fetch (api ++ encoded);
      SetTextContent
        (JStr (lit "Error: HTTP error! Status: " ++ decimal (status response)));
      ConsoleError (lit "HTTP error! Status: " ++ decimal (status response))]).
Proof.
  intros Henc Hfetch Hok.
  rewrite (submit_encoded browser pdfUrl encoded Henc). cbn zeta.
  rewrite Hfetch, Hok. reflexivity.
Qed.

(** X14: whatever the user types, the URL that is requested is the API
    address followed by unreserved characters and percent escapes only:
    the input cannot add a parameter ([&], [=]), a fragment ([#]) or a
    second query ([?]) to the request. *)
Theorem requested_url_is_one_parameter url :
  code_units pdfUrl ->
  In url (fetched_urls (snd (submit browser pdfUrl))) ->
  exists encoded,
    url = api ++ encoded
    /\ Forall (fun c => uri_safe c
                        /\ c <> 38%N /\ c <> 61%N /\ c <> 35%N /\ c <> 63%N)
         encoded.
Proof.
  intros Hunits Hin.
  destruct (encodeURIComponent pdfUrl) as [encoded|] eqn:Henc.
  2: { rewrite (submit_unencodable browser pdfUrl Henc) in Hin.
       destruct Hin. }
  assert (Hurl : url = api ++ encoded).
  { rewrite (submit_encoded browser pdfUrl encoded Henc) in Hin.
    cbn zeta in Hin.
    destruct (fetch browser (api ++ encoded)) as [response|message].
    - destruct (ok response).
      + destruct (json response) as [[|b|m e|t|l|props]|message];
          cbn in Hin; destruct Hin as [Hin|[]]; now symmetry.
      + cbn in Hin; destruct Hin as [Hin|[]]; now symmetry.
    - cbn in Hin; destruct Hin as [Hin|[]]; now symmetry. }
  exists encoded. split; [exact Hurl|].
  pose proof (encodeURIComponent_safe _ pdfUrl encoded (le_n _) Hunits Henc)
    as Hsafe.
  eapply Forall_impl; [exact Hsafe|].
  intros c Hc. split; [exact Hc|].
  destruct Hc as [Hc| ->]; [|repeat split; discriminate].
  repeat split; intros ->; discriminate Hc.
Qed.

(** X15: a request is made exactly when the input can be encoded; an
    input with an unpaired surrogate is answered on the page with the
    engine's [URIError] message, and an input without surrogates is
    always sent. *)
Theorem request_sent_iff_encodable :
  (fetched_urls (snd (submit browser pdfUrl)) = []
   <-> encodeURIComponent pdfUrl = None)
  /\ (encodeURIComponent pdfUrl = None ->
      shown (submit browser pdfUrl)
      = Some (JStr (lit "Error: " ++ URIError_message browser)))
  /\ (Forall (fun c => isSurrogate c = false) pdfUrl ->
      exists encoded,
        fetched_urls (snd (submit browser pdfUrl)) = [api ++ encoded]).
Proof.
  assert (Hsent : forall encoded,
    encodeURIComponent pdfUrl = Some encoded ->
    fetched_urls (snd (submit browser pdfUrl)) = [api ++ encoded]).
  { intros encoded Henc.
    rewrite (submit_encoded browser pdfUrl encoded Henc). cbn zeta.
    destruct (fetch browser (api ++ encoded)) as [response|message];
      [|reflexivity].
    destruct (ok response); [|reflexivity].
    now destruct (json response) as [[|b|m e|t|l|props]|message]. }
  split; [|split].
  - split.
    + destruct (encodeURIComponent pdfUrl) as [encoded|] eqn:Henc;
        [|reflexivity].
      rewrite (Hsent encoded eq_refl). discriminate.
    + intros Henc. now rewrite (submit_unencodable browser pdfUrl Henc).
  - intros Henc. now rewrite (submit_unencodable browser pdfUrl Henc).
  - intros Hplain.
    destruct (encodeURIComponent_total pdfUrl Hplain) as [encoded Henc].
    exists encoded. now apply Hsent.
Qed.

(** X16: the page in front of [/api/pdf-text]: when the request of a
    submission is answered by a run of the ranged route, the page shows
    the extracted text, or "No text extracted or invalid response." when
    the text is empty, or "Error: HTTP error! Status: 400" or "... 500";
    the error label and the message in the body of a failure never reach
    the page. *)
Theorem page_shows_server_answer encoded env req r :
  encodeURIComponent pdfUrl = Some encoded ->
  fst (Server.pdf_text env req) = Eff.Return r ->
  fetch browser (api ++ encoded) = inl (Wire.served r) ->
  shown (submit browser pdfUrl) = Some (Wire.page_for r).
Proof.
  intros Henc Hrun Hfetch.
  rewrite (submit_encoded browser pdfUrl encoded Henc). cbn zeta.
  rewrite Hfetch. revert Hrun.
  ranged_cases env req; cbn [fst]; intros Hrun; injection Hrun as <-;
    try reflexivity.
  unfold Wire.page_for, ok_text. cbn [Server.body].
  destruct (trim _) as [|c t]; reflexivity.
Qed.

End Page.

(** *** The further properties at concrete inputs *)

Import PageSamples.

Lemma parses_what_it_fetched_witness :
  truthy_prop (query (ranged "1" "2") !! lit "pdfUrl") = true
  /\ http_get (serving three_pages) (query (ranged "1" "2") !! lit "pdfUrl")
     = inl [].
Proof.
  apply (parses_what_it_fetched (serving three_pages) (ranged "1" "2")
           [] (Some (Fin 2))).
  left. vm_compute. right. left. reflexivity.
Defined.

Lemma parser_sees_valid_range_witness :
  exists effective_max effective_min,
    max (ranged "1" "2") = Some effective_max
    /\ min (ranged "1" "2") = Some effective_min
    /\ Some (Fin 2) = Some effective_max
    /\ at_least_one effective_max
    /\ at_least_one effective_min
    /\ JS.gt effective_min effective_max = false.
Proof.
  apply (parser_sees_valid_range (serving three_pages) (ranged "1" "2") []).
  vm_compute. right. left. reflexivity.
Defined.

Lemma text_is_trimmed_witness : trimmed (lit "a b").
Proof.
  apply (text_is_trimmed (serving padded_page) (ranged "1" "1")
           (ok_text (lit "a b")) (lit "a b")).
  - left. reflexivity.
  - reflexivity.
Defined.

Lemma parser_message_passes_through_witness :
  pdf_text_all (corrupt "Invalid PDF structure") plain
  = (Return {| status := 500;
               body := FailureJson (lit "Failed to process PDF")
                         (lit "Invalid PDF structure") |},
     [HttpGet fetched; PdfParseCall [] None;
      ConsoleError (lit "Invalid PDF structure")])
  /\ pdf_text (corrupt "Invalid PDF structure") (ranged "2" "3")
     = (Return {| status := 500;
                  body := FailureJson (lit "Failed to process PDF")
                            (lit "Invalid PDF structure") |},
        [HttpGet fetched; PdfParseCall [] (Some (Fin 3));
         ConsoleError (lit "Invalid PDF structure")]).
Proof.
  split.
  - exact (proj1 (parser_message_passes_through
                    (corrupt "Invalid PDF structure") plain []
                    (lit "Invalid PDF structure") eq_refl eq_refl eq_refl)).
  - exact (proj2 (parser_message_passes_through
                    (corrupt "Invalid PDF structure") (ranged "2" "3") []
                    (lit "Invalid PDF structure") eq_refl eq_refl eq_refl)
             eq_refl).
Defined.

Lemma default_range_is_first_100_pages_witness :
  pdf_text (serving three_pages) plain
  = (Return {| status := 200; body := TextJson (lit "a bcd e") |},
     [HttpGet fetched; PdfParseCall [] (Some (Fin 100))]).
Proof.
  apply (default_range_is_first_100_pages (serving three_pages) plain
           [] three_pages); reflexivity.
Defined.

Lemma only_pages_in_range_matter_witness :
  fst (pdf_text (serving three_pages) (ranged "2" "2"))
  = fst (pdf_text (serving other_first_page) (ranged "2" "2")).
Proof.
  apply (only_pages_in_range_matter (serving three_pages) (ranged "2" "2")
           (serving other_first_page) (ranged "2" "2") [] []
           three_pages other_first_page 2 2); try reflexivity.
  lia.
Defined.

Lemma upgrade_preserves_plain_requests_witness :
  fst (pdf_text (serving sparse_pages) plain)
  = fst (Legacy.pdf_text (serving sparse_pages) plain).
Proof.
  apply (upgrade_preserves_plain_requests (serving sparse_pages) plain
           [] sparse_pages); try reflexivity.
  - cbn. lia.
  - unfold single_fragment_pages, sparse_pages. repeat constructor.
Defined.

Lemma http_error_is_reported_witness :
  Client.shown (Client.submit (answering (inl not_found)) (lit "https://x/doc.pdf"))
  = Some (Client.JStr (lit "Error: HTTP error! Status: 404")).
Proof.
  rewrite (http_error_is_reported (answering (inl not_found))
             (lit "https://x/doc.pdf") (lit "https%3A%2F%2Fx%2Fdoc.pdf")
             not_found eq_refl eq_refl eq_refl).
  reflexivity.
Defined.

Lemma requested_url_is_one_parameter_witness :
  exists encoded,
    Client.api ++ lit "https%3A%2F%2Fx%2Fa.pdf%26min%3D5"
    = Client.api ++ encoded
    /\ Forall (fun c => Client.uri_safe c
                        /\ c <> 38%N /\ c <> 61%N /\ c <> 35%N /\ c <> 63%N)
         encoded.
Proof.
  apply (requested_url_is_one_parameter (answering (inl not_found)) smuggling).
  - unfold Client.code_units, smuggling. cbn. repeat constructor.
  - vm_compute. left. reflexivity.
Defined.

Lemma page_shows_server_answer_witness :
  Client.shown
    (Client.submit
       (answering (inl (Wire.served {| status := 500;
                                       body := FailureJson
                                         (lit "Failed to process PDF")
                                         (lit "Invalid max page value") |})))
       (lit "https://x/doc.pdf"))
  = Some (Client.JStr (lit "Error: HTTP error! Status: 500")).
Proof.
  exact (page_shows_server_answer
           (answering (inl (Wire.served (failed (lit "Invalid max page value")))))
           (lit "https://x/doc.pdf") (lit "https%3A%2F%2Fx%2Fdoc.pdf")
           (serving three_pages) (capped "-1")
           (failed (lit "Invalid max page value"))
           eq_refl eq_refl eq_refl).
Defined.
